(** * The external MQTT bridge of core-command

    A shallow embedding of
    [internal/core/command/controller/messaging/external.go]: the two
    message handlers subscribed on the external broker and the response
    publisher they share.

    Go strings are byte sequences and are modelled by [string]; [[]byte]
    is [list byte]; a Go [(T, error)] result is the sum [T + error]; a Go
    map with string keys is a [gmap string _].  A handler returns nothing
    in Go: what it does is what it logs, what it asks of its
    collaborators and what it publishes, so a handler is modelled by the
    list of these events, in program order. *)

From Stdlib Require Import ZArith Ascii String List.
From Stdlib.Strings Require Import Byte.
From stdpp Require Import base gmap strings list pretty.

Local Open Scope string_scope.
Local Open Scope Z_scope.
Local Open Scope list_scope.

(** ** Go values *)

(** The [error] interface, observed only through its [Error()] text. *)
Definition error := string.

(** [time.Duration]: a number of nanoseconds. *)
Definition Duration := Z.

(** [[]byte(s)] and [string(b)]. *)
Definition bytes_of (s : string) : list byte := list_byte_of_string s.
Definition string_of (b : list byte) : string := string_of_list_byte b.

(** The [%d] verb applied to a length. *)
Definition fmt_d (n : nat) : string := pretty n.

(** [m[k]] on a [map[string]string]: the zero value on a missing key. *)
Definition map_index (m : gmap string string) (k : string) : string :=
  default EmptyString (m !! k).

(** [s[i]] on a slice: [None] stands for the run-time panic of an index
    out of range. *)
Definition slice_index (s : list string) (i : Z) : option string :=
  if (i <? 0) then None else s !! Z.to_nat i.

(** [len(s)] as a Go [int]. *)
Definition len {A} (s : list A) : Z := Z.of_nat (length s).

(** ** package strings *)

(** [strings.Split(s, sep)] for a one-byte separator, the only use in the
    source ([sep = "/"]): the substrings between the occurrences of
    [sep]; one more element than there are separators, so never empty. *)
Fixpoint strings_Split (s : string) (sep : ascii) : list string :=
  match s with
  | EmptyString => [EmptyString]
  | String c rest =>
      if Ascii.eqb c sep then EmptyString :: strings_Split rest sep
      else match strings_Split rest sep with
           | [] => [String c EmptyString]
           | seg :: segs => String c seg :: segs
           end
  end.

(** [strings.Join(elems, sep)]. *)
Fixpoint strings_Join (elems : list string) (sep : string) : string :=
  match elems with
  | [] => EmptyString
  | [e] => e
  | e :: rest => e +:+ sep +:+ strings_Join rest sep
  end.

(** The ASCII path of [strings.EqualFold]: byte by byte, equal or one the
    upper case and the other the lower case of one letter.  On strings
    of bytes below 0x80 this is the whole of the library function. *)
Definition ascii_fold_eq (a b : ascii) : bool :=
  let x := N.min (N_of_ascii a) (N_of_ascii b) in
  let y := N.max (N_of_ascii a) (N_of_ascii b) in
  (x =? y)%N || ((65 <=? x)%N && (x <=? 90)%N && (y =? x + 32)%N).

Fixpoint ascii_EqualFold (s t : string) : bool :=
  match s, t with
  | EmptyString, EmptyString => true
  | String a s', String b t' => ascii_fold_eq a b && ascii_EqualFold s' t'
  | _, _ => false
  end.

(** Whether the byte [sep] occurs in [s]. *)
Fixpoint has_byte (sep : ascii) (s : string) : bool :=
  match s with
  | EmptyString => false
  | String c rest => Ascii.eqb c sep || has_byte sep rest
  end.

(** ** package types (go-mod-messaging) *)

Module types.

(** Modelled from the spec: the [MessageEnvelope] struct is declared in
    go-mod-messaging, outside the source unit; its fields are those of
    section 3 of the specification. *)
Record MessageEnvelope := {
  ApiVersion : string;
  CorrelationID : string;
  RequestID : string;
  ErrorCode : Z;
  Payload : list byte;
  ContentType : string;
  QueryParams : gmap string string
}.

End types.

(** ** package mqtt (paho) *)

Module mqtt.

(** A delivery token: what [Wait()] and [Error()] answer. *)
Record Token := { Wait : bool; Error : option error }.

(** The part of the [Client] interface the source calls. *)
Record Client := {
  Publish : string -> byte -> bool -> list byte -> Token
}.

(** The part of the [Message] interface the source calls. *)
Record Message := { Topic : string; Payload : list byte }.

End mqtt.

(** ** Configuration and the dependency container *)

Record ExternalMQTTInfo := {
  Topics : gmap string string;
  QoS : byte;
  Retain : bool
}.

Record MessageBusInfo := { BusTopics : gmap string string }.

Record ConfigurationStruct := {
  ExternalMQTT : ExternalMQTTInfo;
  MessageBus : MessageBusInfo
}.

(** The [messaging.MessageClient] interface: the correlated, bounded-time
    request on the internal bus. *)
Record MessageClient := {
  Request : types.MessageEnvelope -> string -> string -> Duration ->
            types.MessageEnvelope + error
}.

(** What the handlers take out of the [di.Container]. *)
Record Container := {
  ConfigurationFrom : ConfigurationStruct;
  MessagingClientFrom : MessageClient
}.

(** ** Events *)

Inductive Level := DEBUG | WARN | ERROR.

Inductive Event :=
| Log (lvl : Level) (text : string)
| Published (topic : string) (qos : byte) (retained : bool)
            (payload : list byte)
| QueryCall (request : types.MessageEnvelope) (deviceName : string)
| RouteCall (prefix deviceName commandName method : string)
| ParamsCall (queryParams : gmap string string)
| RequestCall (request : types.MessageEnvelope)
              (service topic : string) (timeout : Duration)
| Panic.

(** The publish calls of a run, in order. *)
Fixpoint publishes (tr : list Event) : list Event :=
  match tr with
  | [] => []
  | Published t q r p :: tr' => Published t q r p :: publishes tr'
  | _ :: tr' => publishes tr'
  end.

Definition is_log (e : Event) : bool :=
  match e with Log _ _ => true | _ => false end.

(** The device names handed to the command-query collaborator, in order. *)
Fixpoint queryArguments (tr : list Event) : list string :=
  match tr with
  | [] => []
  | QueryCall _ deviceName :: tr' => deviceName :: queryArguments tr'
  | _ :: tr' => queryArguments tr'
  end.

(** ** What the source unit takes from elsewhere

    The library functions, constants and package-level helpers the
    source calls but does not define.  They are arguments of the model,
    so every statement holds for the real ones; [strings_EqualFold] in
    particular stands for the library's Unicode case folding. *)

Record Externals := {
  (** Go standard library *)
  strings_EqualFold : string -> string -> bool;
  json_Marshal : types.MessageEnvelope -> list byte * option error;
  (** go-mod-core-contracts, package common *)
  common_All : string;
  common_ExternalCommandQueryResponseTopicKey : string;
  common_ExternalCommandResponseTopicPrefixKey : string;
  common_DeviceCommandRequestTopicPrefixKey : string;
  (** go-mod-messaging, package types *)
  types_NewMessageEnvelopeFromJSON :
    list byte -> types.MessageEnvelope + error;
  types_errorEnvelopeBlank : types.MessageEnvelope;
  (** package messaging, the other files of the package *)
  getCommandQueryResponseEnvelope :
    types.MessageEnvelope -> string -> Container ->
    types.MessageEnvelope + error;
  validateRequestTopic :
    string -> string -> string -> string -> Container ->
    (string * string) + error;
  validateGetCommandQueryParameters : gmap string string -> option error
}.

(** ** The source unit *)

Section Messaging.

Context (X : Externals).

(** Modelled from the spec: [types.NewMessageEnvelopeWithError] is a
    constructor of go-mod-messaging, outside the source unit.  Sections
    3, 4.3 and 4.4 of the specification: an error envelope carries the
    request id it is given, [ErrorCode = 1] and the message, as bytes,
    for payload.  The fields the specification leaves open (a fresh
    correlation id, API version, content type, query parameters) are
    those of [types_errorEnvelopeBlank]. *)
Definition NewMessageEnvelopeWithError (requestId errorMessage : string)
  : types.MessageEnvelope :=
  let blank := types_errorEnvelopeBlank X in
  {| types.ApiVersion := types.ApiVersion blank;
     types.CorrelationID := types.CorrelationID blank;
     types.RequestID := requestId;
     types.ErrorCode := 1;
     types.Payload := bytes_of errorMessage;
     types.ContentType := types.ContentType blank;
     types.QueryParams := types.QueryParams blank |}.

Definition noResponseWarning : Event :=
  Log WARN "Not publishing error message back due to insufficient information on response topic".

(** [publishMessage], lines 157-169. *)
Definition publishMessage (client : mqtt.Client) (responseTopic : string)
    (qos : byte) (retain : bool) (message : types.MessageEnvelope)
  : list Event :=
  (if types.ErrorCode message =? 1
   then [Log ERROR (string_of (types.Payload message))] else []) ++
  let envelopeBytes := fst (json_Marshal X message) in
  let token := mqtt.Publish client responseTopic qos retain envelopeBytes in
  Published responseTopic qos retain envelopeBytes ::
  match mqtt.Wait token, mqtt.Error token with
  | true, Some err =>
      [Log ERROR ("Could not publish to external message broker on topic '"
                  +:+ responseTopic +:+ "': " +:+ err)]
  | _, _ =>
      [Log DEBUG ("Published response message to external message broker on topic '"
                  +:+ responseTopic +:+ "' with "
                  +:+ fmt_d (length envelopeBytes) +:+ " bytes")]
  end.

(** Line 61: the configured topic of the query responses. *)
Definition queryResponseTopic (dic : Container) : string :=
  let externalMQTTInfo := ExternalMQTT (ConfigurationFrom dic) in
  map_index (Topics externalMQTTInfo)
            (common_ExternalCommandQueryResponseTopicKey X).

(** [commandQueryHandler], lines 48-85. *)
Definition commandQueryHandler (dic : Container)
    (client : mqtt.Client) (message : mqtt.Message) : list Event :=
  Log DEBUG ("Received command query request from external message broker on topic '"
             +:+ mqtt.Topic message +:+ "' with "
             +:+ fmt_d (length (mqtt.Payload message)) +:+ " bytes") ::
  match types_NewMessageEnvelopeFromJSON X (mqtt.Payload message) with
  | inr err =>
      [Log ERROR ("Failed to decode request MessageEnvelope: " +:+ err);
       noResponseWarning]
  | inl requestEnvelope =>
      let externalMQTTInfo := ExternalMQTT (ConfigurationFrom dic) in
      let responseTopic := queryResponseTopic dic in
      if String.eqb responseTopic EmptyString then
        [Log ERROR "QueryResponseTopic not provided in External.Topics";
         noResponseWarning]
      else
        let topicLevels := strings_Split (mqtt.Topic message) "/" in
        match slice_index topicLevels (len topicLevels - 1) with
        | None => [Panic]
        | Some lastLevel =>
            let deviceName :=
              if strings_EqualFold X lastLevel (common_All X)
              then common_All X else lastLevel in
            QueryCall requestEnvelope deviceName ::
            let responseEnvelope :=
              match getCommandQueryResponseEnvelope X requestEnvelope
                      deviceName dic with
              | inl response => response
              | inr err =>
                  NewMessageEnvelopeWithError
                    (types.RequestID requestEnvelope) err
              end in
            let qos := QoS externalMQTTInfo in
            let retain := Retain externalMQTTInfo in
            publishMessage client responseTopic qos retain responseEnvelope
        end
  end.

(** Lines 103-114 of [commandRequestHandler]: the topic levels and, when
    there are three or more, the last three of them.  The outer [None]
    is the handler's own refusal of a short topic; an inner [None] would
    be an index out of range. *)
Definition commandTopicLevels (topic : string)
  : option (option (string * string * string)) :=
  let topicLevels := strings_Split topic "/" in
  let length := len topicLevels in
  if length <? 3 then None
  else Some
    (deviceName ← slice_index topicLevels (length - 3);
     commandName ← slice_index topicLevels (length - 2);
     method ← slice_index topicLevels (length - 1);
     Some (deviceName, commandName, method)).

(** Line 121: the external response topic, the configured prefix and the
    three parsed levels joined by [/]. *)
Definition responseTopicFor (dic : Container)
    (deviceName commandName method : string) : string :=
  let externalMQTTInfo := ExternalMQTT (ConfigurationFrom dic) in
  strings_Join
    [map_index (Topics externalMQTTInfo)
               (common_ExternalCommandResponseTopicPrefixKey X);
     deviceName; commandName; method] "/".

(** Lines 123-124: the configured prefix of the internal request topics. *)
Definition internalRequestPrefix (dic : Container) : string :=
  let internalMessageBusInfo := MessageBus (ConfigurationFrom dic) in
  map_index (BusTopics internalMessageBusInfo)
            (common_DeviceCommandRequestTopicPrefixKey X).

(** [commandRequestHandler], lines 87-155.  The format of line 151 has
    three verbs for two operands; [fmt] prints the third as
    [%!s(MISSING)]. *)
Definition commandRequestHandler (requestTimeout : Duration)
    (dic : Container) (client : mqtt.Client) (message : mqtt.Message)
  : list Event :=
  Log DEBUG ("Received command request from external message broker on topic '"
             +:+ mqtt.Topic message +:+ "' with "
             +:+ fmt_d (length (mqtt.Payload message)) +:+ " bytes") ::
  let externalMQTTInfo := ExternalMQTT (ConfigurationFrom dic) in
  let qos := QoS externalMQTTInfo in
  let retain := Retain externalMQTTInfo in
  match types_NewMessageEnvelopeFromJSON X (mqtt.Payload message) with
  | inr err =>
      [Log ERROR ("Failed to decode request MessageEnvelope: " +:+ err);
       noResponseWarning]
  | inl requestEnvelope =>
  match commandTopicLevels (mqtt.Topic message) with
  | None =>
      [Log ERROR "Failed to parse and construct response topic scheme, expected request topic scheme: '#/<device-name>/<command-name>/<method>";
       noResponseWarning]
  | Some None => [Panic]
  | Some (Some (deviceName, commandName, method)) =>
  if negb (strings_EqualFold X method "get")
     && negb (strings_EqualFold X method "set") then
    [Log ERROR ("Unknown request method: " +:+ method
                +:+ ", only 'get' or 'set' is allowed");
     noResponseWarning]
  else
  let externalResponseTopic :=
    responseTopicFor dic deviceName commandName method in
  let internalPrefix := internalRequestPrefix dic in
  RouteCall internalPrefix deviceName commandName method ::
  match validateRequestTopic X internalPrefix deviceName commandName
          method dic with
  | inr err =>
      let responseEnvelope :=
        NewMessageEnvelopeWithError (types.RequestID requestEnvelope) err in
      publishMessage client externalResponseTopic qos retain responseEnvelope
  | inl (deviceServiceName, deviceRequestTopic) =>
  ParamsCall (types.QueryParams requestEnvelope) ::
  match validateGetCommandQueryParameters X
          (types.QueryParams requestEnvelope) with
  | Some err =>
      let responseEnvelope :=
        NewMessageEnvelopeWithError (types.RequestID requestEnvelope) err in
      publishMessage client externalResponseTopic qos retain responseEnvelope
  | None =>
  let internalMessageBus := MessagingClientFrom dic in
  Log DEBUG ("Sending Command request to internal MessageBus. Topic: "
             +:+ deviceRequestTopic +:+ ", Request-id: "
             +:+ types.RequestID requestEnvelope +:+ " Correlation-id: "
             +:+ types.CorrelationID requestEnvelope) ::
  RequestCall requestEnvelope deviceServiceName deviceRequestTopic
              requestTimeout ::
  match Request internalMessageBus requestEnvelope deviceServiceName
          deviceRequestTopic requestTimeout with
  | inr err =>
      let errorMessage :=
        "Failed to send DeviceCommand request with internal MessageBus: "
        +:+ err in
      let responseEnvelope :=
        NewMessageEnvelopeWithError (types.RequestID requestEnvelope)
                                    errorMessage in
      publishMessage client externalResponseTopic qos retain responseEnvelope
  | inl response =>
      Log DEBUG ("Command response received from internal MessageBus. Topic: "
                 +:+ types.RequestID response +:+ ", Request-id: "
                 +:+ types.CorrelationID response
                 +:+ " Correlation-id: %!s(MISSING)") ::
      publishMessage client externalResponseTopic qos retain response
  end end end end end.

End Messaging.

(** ** Stand-ins for the collaborators

    Fixed collaborators, in the manner of the fakes a test of the
    package would inject; they follow the scenario of section 8 of the
    specification (device [sensor1] served by [svcA]). *)

Module Scenario.

Definition envelope (requestId : string) (code : Z) (payload : string)
    (params : gmap string string) : types.MessageEnvelope :=
  {| types.ApiVersion := "v3";
     types.CorrelationID := "c-" +:+ requestId;
     types.RequestID := requestId;
     types.ErrorCode := code;
     types.Payload := bytes_of payload;
     types.ContentType := "application/json";
     types.QueryParams := params |}.

(** A decoder by table: the wire text [R1] is a request without query
    parameters, [R2] one with a malformed [ds-returnevent]; anything
    else does not decode. *)
Definition decode (b : list byte) : types.MessageEnvelope + error :=
  if String.eqb (string_of b) "R1" then inl (envelope "R1" 0 EmptyString ∅)
  else if String.eqb (string_of b) "R2"
  then inl (envelope "R2" 0 EmptyString {[ "ds-returnevent" := "maybe" ]})
  else inr "invalid character looking for beginning of value".

(** A readable wire form: request id, error code and payload. *)
Definition marshal (e : types.MessageEnvelope) : list byte * option error :=
  (bytes_of (types.RequestID e +:+ "|" +:+ pretty (types.ErrorCode e)
             +:+ "|" +:+ string_of (types.Payload e)), None).

Definition route (prefix deviceName commandName method : string)
    (dic : Container) : (string * string) + error :=
  if String.eqb deviceName "sensor1"
  then inl ("svcA",
            strings_Join [prefix; "svcA"; deviceName; commandName; method] "/")
  else inr ("device " +:+ deviceName +:+ " not found").

Definition checkParams (queryParams : gmap string string) : option error :=
  match queryParams !! "ds-returnevent" with
  | Some v =>
      if String.eqb v "true" || String.eqb v "false" then None
      else Some ("invalid query parameter, " +:+ v
                 +:+ " has to be 'true' or 'false'")
  | None => None
  end.

Definition query (request : types.MessageEnvelope) (deviceName : string)
    (dic : Container) : types.MessageEnvelope + error :=
  inl (envelope (types.RequestID request) 0 ("commands of " +:+ deviceName) ∅).

(** A serializer that fails, as [json.Marshal] does: no bytes and an
    error. *)
Definition failingMarshal (e : types.MessageEnvelope)
  : list byte * option error :=
  ([], Some "json: unsupported value").

Definition externalsWith
    (marshal : types.MessageEnvelope -> list byte * option error)
  : Externals :=
  {| strings_EqualFold := ascii_EqualFold;
     json_Marshal := marshal;
     common_All := "all";
     common_ExternalCommandQueryResponseTopicKey := "CommandQueryResponseTopic";
     common_ExternalCommandResponseTopicPrefixKey := "CommandResponseTopicPrefix";
     common_DeviceCommandRequestTopicPrefixKey := "DeviceCommandRequestTopicPrefix";
     types_NewMessageEnvelopeFromJSON := decode;
     types_errorEnvelopeBlank := envelope EmptyString 0 EmptyString ∅;
     getCommandQueryResponseEnvelope := query;
     validateRequestTopic := route;
     validateGetCommandQueryParameters := checkParams |}.

Definition externals : Externals := externalsWith marshal.

(** An internal bus that answers [42] in time, and one that times out. *)
Definition answeringBus : MessageClient :=
  {| Request := fun request _ _ _ =>
       inl (envelope (types.RequestID request) 0 "42" ∅) |}.

Definition silentBus : MessageClient :=
  {| Request := fun _ _ _ _ => inr "request timed out" |}.

Definition configuration (topics : gmap string string) : ConfigurationStruct :=
  {| ExternalMQTT := {| Topics := topics; QoS := x01; Retain := false |};
     MessageBus :=
       {| BusTopics := {[ "DeviceCommandRequestTopicPrefix" := "internal" ]} |} |}.

Definition topics : gmap string string :=
  {[ "CommandQueryResponseTopic" := "edgex/commandquery/response";
     "CommandResponseTopicPrefix" := "edgex/command/response" ]}.

Definition dic (bus : MessageClient) : Container :=
  {| ConfigurationFrom := configuration topics; MessagingClientFrom := bus |}.

(** A container whose configuration names no external topic. *)
Definition bareDic : Container :=
  {| ConfigurationFrom := configuration ∅;
     MessagingClientFrom := answeringBus |}.

Definition broker : mqtt.Client :=
  {| mqtt.Publish := fun _ _ _ _ => {| mqtt.Wait := true; mqtt.Error := None |} |}.

Definition deafBroker : mqtt.Client :=
  {| mqtt.Publish := fun _ _ _ _ =>
       {| mqtt.Wait := true; mqtt.Error := Some "not connected" |} |}.

Definition message (topic payload : string) : mqtt.Message :=
  {| mqtt.Topic := topic; mqtt.Payload := bytes_of payload |}.

Definition timeout : Duration := 5000000000.

End Scenario.

(** ** Connecting to the external broker *)

(** The number of occurrences of the byte [sep] in [s]. *)
Fixpoint count_byte (sep : ascii) (s : string) : nat :=
  match s with
  | EmptyString => 0%nat
  | String c rest =>
      if Ascii.eqb c sep then S (count_byte sep rest)
      else count_byte sep rest
  end.

(** [mqtt.MessageHandler]: what the two handler constructors return. *)
Definition MessageHandler := mqtt.Client -> mqtt.Message -> list Event.

(** The [Subscribe] method of the [mqtt.Client] interface; only
    [OnConnectHandler] calls it. *)
Record SubscribingClient := {
  Subscribe : string -> byte -> MessageHandler -> mqtt.Token
}.

(** The two topic keys of go-mod-core-contracts that only
    [OnConnectHandler] reads. *)
Record SubscriptionKeys := {
  common_CommandQueryRequestTopicKey : string;
  common_CommandRequestTopicKey : string
}.

(** What [OnConnectHandler] does: it logs and it subscribes. *)
Inductive ConnectEvent :=
| ConnectLog (lvl : Level) (text : string)
| Subscribed (topic : string) (qos : byte) (callback : MessageHandler).

(** The subscribe calls of a run, in order. *)
Fixpoint subscriptions (tr : list ConnectEvent) : list ConnectEvent :=
  match tr with
  | [] => []
  | Subscribed t q cb :: tr' => Subscribed t q cb :: subscriptions tr'
  | _ :: tr' => subscriptions tr'
  end.

Section Connection.

Context (X : Externals) (K : SubscriptionKeys).

(** [OnConnectHandler], lines 25-46. *)
Definition OnConnectHandler (requestTimeout : Duration) (dic : Container)
    (client : SubscribingClient) : list ConnectEvent :=
  let config := ConfigurationFrom dic in
  let externalTopics := Topics (ExternalMQTT config) in
  let qos := QoS (ExternalMQTT config) in
  let requestQueryTopic :=
    map_index externalTopics (common_CommandQueryRequestTopicKey K) in
  (Subscribed requestQueryTopic qos (commandQueryHandler X dic) ::
   let token :=
     Subscribe client requestQueryTopic qos (commandQueryHandler X dic) in
   match mqtt.Wait token, mqtt.Error token with
   | true, Some err =>
       [ConnectLog ERROR ("could not subscribe to topic '"
                          +:+ requestQueryTopic +:+ "': " +:+ err)]
   | _, _ =>
       [ConnectLog DEBUG ("Subscribed to topic '" +:+ requestQueryTopic
                          +:+ "' on external MQTT broker")]
   end) ++
  let requestCommandTopic :=
    map_index externalTopics (common_CommandRequestTopicKey K) in
  Subscribed requestCommandTopic qos
             (commandRequestHandler X requestTimeout dic) ::
  let token :=
    Subscribe client requestCommandTopic qos
              (commandRequestHandler X requestTimeout dic) in
  match mqtt.Wait token, mqtt.Error token with
  | true, Some err =>
      [ConnectLog ERROR ("could not subscribe to topic '"
                         +:+ requestCommandTopic +:+ "': " +:+ err)]
  | _, _ =>
      [ConnectLog DEBUG ("Subscribed to topic '" +:+ requestCommandTopic
                         +:+ "' on external MQTT broker")]
  end.

End Connection.

(** Stand-ins for the connection: the topic keys, a broker that accepts
    every subscription and one that refuses the query-request filter. *)
Module ConnectScenario.

Definition keys : SubscriptionKeys :=
  {| common_CommandQueryRequestTopicKey := "CommandQueryRequestTopic";
     common_CommandRequestTopicKey := "CommandRequestTopic" |}.

Definition topics : gmap string string :=
  {[ "CommandQueryRequestTopic" := "edgex/commandquery/request/#";
     "CommandRequestTopic" := "edgex/command/request/#";
     "CommandQueryResponseTopic" := "edgex/commandquery/response";
     "CommandResponseTopicPrefix" := "edgex/command/response" ]}.

Definition dic : Container :=
  {| ConfigurationFrom := Scenario.configuration topics;
     MessagingClientFrom := Scenario.answeringBus |}.

Definition accepting : SubscribingClient :=
  {| Subscribe := fun _ _ _ => {| mqtt.Wait := true; mqtt.Error := None |} |}.

Definition refusingQueries : SubscribingClient :=
  {| Subscribe := fun topic _ _ =>
       if String.eqb topic "edgex/commandquery/request/#"
       then {| mqtt.Wait := true; mqtt.Error := Some "not authorized" |}
       else {| mqtt.Wait := true; mqtt.Error := None |} |}.

(** The collaborators of [Scenario], with a command query that knows no
    device. *)
Definition withoutDevices : Externals :=
  {| strings_EqualFold := strings_EqualFold Scenario.externals;
     json_Marshal := json_Marshal Scenario.externals;
     common_All := common_All Scenario.externals;
     common_ExternalCommandQueryResponseTopicKey :=
       common_ExternalCommandQueryResponseTopicKey Scenario.externals;
     common_ExternalCommandResponseTopicPrefixKey :=
       common_ExternalCommandResponseTopicPrefixKey Scenario.externals;
     common_DeviceCommandRequestTopicPrefixKey :=
       common_DeviceCommandRequestTopicPrefixKey Scenario.externals;
     types_NewMessageEnvelopeFromJSON :=
       types_NewMessageEnvelopeFromJSON Scenario.externals;
     types_errorEnvelopeBlank := types_errorEnvelopeBlank Scenario.externals;
     getCommandQueryResponseEnvelope := fun _ deviceName _ =>
       inr ("device " +:+ deviceName +:+ " not found");
     validateRequestTopic := validateRequestTopic Scenario.externals;
     validateGetCommandQueryParameters :=
       validateGetCommandQueryParameters Scenario.externals |}.

End ConnectScenario.

Example scenario_success_trace :
  publishes (commandRequestHandler Scenario.externals Scenario.timeout
               (Scenario.dic Scenario.answeringBus) Scenario.broker
               (Scenario.message "edgex/command/request/sensor1/heartbeat/get" "R1"))
  = [Published "edgex/command/response/sensor1/heartbeat/get" x01 false
               (bytes_of "R1|0|42")].
Proof. vm_compute. reflexivity. Qed.

(** ** Topic levels *)

Lemma strings_Split_nonempty s sep : strings_Split s sep <> [].
Proof.
  destruct s as [|c rest]; simpl; [discriminate|].
  destruct (Ascii.eqb c sep); [discriminate|].
  destruct (strings_Split rest sep); discriminate.
Qed.

Lemma strings_Split_levels s sep :
  Forall (fun seg => has_byte sep seg = false) (strings_Split s sep).
Proof.
  induction s as [|c rest IH]; simpl.
  - repeat constructor.
  - destruct (Ascii.eqb c sep) eqn:Hc.
    + constructor; [reflexivity | exact IH].
    + destruct (strings_Split rest sep) as [|seg segs]; simpl.
      * repeat constructor. simpl. rewrite Hc. reflexivity.
      * inversion IH; subst. constructor; [|assumption].
        simpl. rewrite Hc. assumption.
Qed.

(** Joining the levels gives the topic back. *)
Lemma strings_Join_Split s sep :
  strings_Join (strings_Split s sep) (String sep EmptyString) = s.
Proof.
  induction s as [|c rest IH]; simpl; [reflexivity|].
  destruct (Ascii.eqb c sep) eqn:Hc.
  - apply Ascii.eqb_eq in Hc. subst c.
    destruct (strings_Split rest sep) as [|seg segs] eqn:E.
    + exfalso. eapply strings_Split_nonempty; eauto.
    + change (String sep (strings_Join (seg :: segs) (String sep EmptyString))
              = String sep rest).
      rewrite IH. reflexivity.
  - destruct (strings_Split rest sep) as [|seg segs] eqn:E.
    + exfalso. eapply strings_Split_nonempty; eauto.
    + rewrite <- IH. destruct segs; reflexivity.
Qed.

(** Splitting a join of separator-free levels gives the levels back. *)
Lemma strings_Split_level seg sep :
  has_byte sep seg = false -> strings_Split seg sep = [seg].
Proof.
  induction seg as [|c rest IH]; simpl; [reflexivity|].
  intros H. apply orb_false_iff in H as [Hc Hrest].
  rewrite Hc, (IH Hrest). reflexivity.
Qed.

Lemma strings_Split_app_level seg rest sep :
  has_byte sep seg = false ->
  strings_Split (seg +:+ String sep rest) sep = seg :: strings_Split rest sep.
Proof.
  induction seg as [|c seg' IH]; intros H.
  - simpl. rewrite Ascii.eqb_refl. reflexivity.
  - simpl in H. apply orb_false_iff in H as [Hc Hrest].
    change (String c seg' +:+ String sep rest)
      with (String c (seg' +:+ String sep rest)).
    cbn [strings_Split]. rewrite Hc, (IH Hrest). reflexivity.
Qed.

Lemma strings_Split_Join segs sep :
  segs <> [] ->
  Forall (fun seg => has_byte sep seg = false) segs ->
  strings_Split (strings_Join segs (String sep EmptyString)) sep = segs.
Proof.
  induction segs as [|seg segs IH]; [congruence|].
  intros _ Hall. inversion Hall as [|? ? Hseg Hrest]; subst.
  destruct segs as [|seg' segs'].
  - simpl. apply strings_Split_level; assumption.
  - change (strings_Join (seg :: seg' :: segs') (String sep EmptyString))
      with (seg +:+ String sep (strings_Join (seg' :: segs') (String sep EmptyString))).
    rewrite strings_Split_app_level by assumption.
    rewrite IH; [reflexivity | discriminate | assumption].
Qed.

(** Indexing from the end of a slice. *)
Lemma slice_index_from_end (pre post : list string) (x : string) :
  slice_index (pre ++ x :: post) (len (pre ++ x :: post) - (len post + 1))
  = Some x.
Proof.
  unfold slice_index, len. rewrite !length_app. cbn [length].
  assert (E : Z.of_nat (length pre + S (length post))
              - (Z.of_nat (length post) + 1) = Z.of_nat (length pre)) by lia.
  rewrite E.
  destruct (Z.ltb_spec (Z.of_nat (length pre)) 0) as [?|_]; [lia|].
  rewrite Nat2Z.id. apply list_lookup_middle. reflexivity.
Qed.

Lemma commandTopicLevels_last3 topic pre d c m :
  strings_Split topic "/" = pre ++ [d; c; m] ->
  commandTopicLevels topic = Some (Some (d, c, m)).
Proof.
  intros E. unfold commandTopicLevels. rewrite E.
  assert (L : len (pre ++ [d; c; m]) = Z.of_nat (length pre) + 3).
  { unfold len. rewrite length_app. simpl. lia. }
  destruct (Z.ltb_spec (len (pre ++ [d; c; m])) 3) as [?|_]; [lia|].
  pose proof (slice_index_from_end pre [c; m] d) as Hd.
  pose proof (slice_index_from_end (pre ++ [d]) [m] c) as Hc.
  pose proof (slice_index_from_end (pre ++ [d; c]) [] m) as Hm.
  rewrite <- !app_assoc in Hc, Hm. simpl in Hc, Hm.
  change (len [c; m] + 1) with 3 in Hd.
  change (len [m] + 1) with 2 in Hc.
  change (len (@nil string) + 1) with 1 in Hm.
  rewrite Hd. cbn [mbind option_bind]. rewrite Hc. cbn [mbind option_bind].
  rewrite Hm. reflexivity.
Qed.

Lemma commandTopicLevels_short topic :
  (length (strings_Split topic "/") < 3)%nat ->
  commandTopicLevels topic = None.
Proof.
  intros H. unfold commandTopicLevels.
  destruct (Z.ltb_spec (len (strings_Split topic "/")) 3) as [_|Hge];
    [reflexivity|]. unfold len in Hge. lia.
Qed.

(** A list of three or more levels ends in three levels. *)
Lemma last3_exists (l : list string) :
  (3 <= length l)%nat -> exists pre d c m, l = pre ++ [d; c; m].
Proof.
  intros H.
  destruct (rev l) as [|m [|c [|d r]]] eqn:E;
    try (apply (f_equal (@length string)) in E;
         rewrite length_rev in E; simpl in E; lia).
  exists (rev r), d, c, m.
  rewrite <- (rev_involutive l), E. simpl.
  rewrite <- !app_assoc. reflexivity.
Qed.

(** ** The response publisher *)

Lemma publishes_app tr1 tr2 :
  publishes (tr1 ++ tr2) = publishes tr1 ++ publishes tr2.
Proof.
  induction tr1 as [|e tr1 IH]; [reflexivity|].
  destruct e; simpl; rewrite IH; reflexivity.
Qed.

Lemma publishes_publishMessage X client topic qos retain message :
  publishes (publishMessage X client topic qos retain message)
  = [Published topic qos retain (fst (json_Marshal X message))].
Proof.
  unfold publishMessage. cbv zeta. rewrite publishes_app.
  destruct (types.ErrorCode message =? 1);
    cbn [publishes app];
    destruct (mqtt.Publish client _ _ _ _) as [[] []]; reflexivity.
Qed.

Lemma queryArguments_publishMessage X client topic qos retain message :
  queryArguments (publishMessage X client topic qos retain message) = [].
Proof.
  unfold publishMessage. cbv zeta.
  destruct (types.ErrorCode message =? 1);
    cbn [queryArguments app];
    destruct (mqtt.Publish client _ _ _ _) as [[] []]; reflexivity.
Qed.

Lemma publishMessage_events X client topic qos retain message e :
  In e (publishMessage X client topic qos retain message) ->
  is_log e = true \/
  e = Published topic qos retain (fst (json_Marshal X message)).
Proof.
  unfold publishMessage. intros H. apply in_app_or in H as [H|H].
  - destruct (types.ErrorCode message =? 1); simpl in H; [|tauto].
    destruct H as [<-|[]]. left; reflexivity.
  - cbv zeta in H. destruct H as [<-|H]; [right; reflexivity|].
    destruct (mqtt.Publish client _ _ _ _) as [[] []]; simpl in H;
      destruct H as [<-|[]]; left; reflexivity.
Qed.

Lemma NewMessageEnvelopeWithError_fields X requestId errorMessage :
  types.ErrorCode (NewMessageEnvelopeWithError X requestId errorMessage) = 1 /\
  types.RequestID (NewMessageEnvelopeWithError X requestId errorMessage)
  = requestId /\
  types.Payload (NewMessageEnvelopeWithError X requestId errorMessage)
  = bytes_of errorMessage.
Proof. repeat split. Qed.

Ltac step_handler :=
  cbv zeta; cbn [publishes queryArguments negb andb orb];
  rewrite ?publishes_publishMessage, ?queryArguments_publishMessage.

(** ** Requests that cannot be answered *)

Lemma commandRequestHandler_undecodable X requestTimeout dic client message err :
  types_NewMessageEnvelopeFromJSON X (mqtt.Payload message) = inr err ->
  publishes (commandRequestHandler X requestTimeout dic client message) = [].
Proof. intros E. unfold commandRequestHandler. rewrite E. reflexivity. Qed.

Lemma commandQueryHandler_undecodable X dic client message err :
  types_NewMessageEnvelopeFromJSON X (mqtt.Payload message) = inr err ->
  publishes (commandQueryHandler X dic client message) = [].
Proof. intros E. unfold commandQueryHandler. rewrite E. reflexivity. Qed.

Lemma commandRequestHandler_short_topic X requestTimeout dic client message :
  commandTopicLevels (mqtt.Topic message) = None ->
  publishes (commandRequestHandler X requestTimeout dic client message) = [].
Proof.
  intros E. unfold commandRequestHandler. rewrite E.
  destruct (types_NewMessageEnvelopeFromJSON X _); reflexivity.
Qed.

(** C3: a payload that does not decode (on either handler), a command
    topic of fewer than three levels, and a query request when no
    query-response topic is configured are all dropped: the handler
    publishes nothing. *)
Theorem unanswerable_inputs_publish_nothing
    (X : Externals) (requestTimeout : Duration) (dic : Container)
    (client : mqtt.Client) (message : mqtt.Message) :
  (forall err,
     types_NewMessageEnvelopeFromJSON X (mqtt.Payload message) = inr err ->
     publishes (commandQueryHandler X dic client message) = [] /\
     publishes (commandRequestHandler X requestTimeout dic client message) = [])
  /\
  ((length (strings_Split (mqtt.Topic message) "/") < 3)%nat ->
   publishes (commandRequestHandler X requestTimeout dic client message) = [])
  /\
  (queryResponseTopic X dic = EmptyString ->
   publishes (commandQueryHandler X dic client message) = []).
Proof.
  split; [|split].
  - intros err E. split.
    + eapply commandQueryHandler_undecodable; eassumption.
    + eapply commandRequestHandler_undecodable; eassumption.
  - intros Hshort. apply commandRequestHandler_short_topic.
    apply commandTopicLevels_short. assumption.
  - intros Hnone. unfold commandQueryHandler.
    destruct (types_NewMessageEnvelopeFromJSON X _); [|reflexivity].
    cbv zeta. rewrite Hnone. reflexivity.
Qed.

Lemma unanswerable_inputs_witness :
  let configured := Scenario.dic Scenario.answeringBus in
  let garbled :=
    Scenario.message "edgex/command/request/sensor1/heartbeat/get"
                     "not an envelope" in
  let short := Scenario.message "heartbeat/get" "R1" in
  let query := Scenario.message "edgex/commandquery/request/sensor1" "R1" in
  (publishes (commandQueryHandler Scenario.externals configured
                Scenario.broker garbled) = [] /\
   publishes (commandRequestHandler Scenario.externals Scenario.timeout
                configured Scenario.broker garbled) = []) /\
  publishes (commandRequestHandler Scenario.externals Scenario.timeout
               configured Scenario.broker short) = [] /\
  publishes (commandQueryHandler Scenario.externals Scenario.bareDic
               Scenario.broker query) = [].
Proof.
  intros configured garbled short query. split; [|split].
  - apply (proj1 (unanswerable_inputs_publish_nothing Scenario.externals
                    Scenario.timeout configured Scenario.broker garbled)
             "invalid character looking for beginning of value").
    vm_compute. reflexivity.
  - apply (proj1 (proj2 (unanswerable_inputs_publish_nothing
                           Scenario.externals Scenario.timeout configured
                           Scenario.broker short))).
    vm_compute. lia.
  - apply (proj2 (proj2 (unanswerable_inputs_publish_nothing
                           Scenario.externals Scenario.timeout
                           Scenario.bareDic Scenario.broker query))).
    vm_compute. reflexivity.
Defined.

(** ** Unknown methods *)

(** C1, as the code has it: a command request whose topic has three or
    more levels and whose last level is neither [get] nor [set] under
    [strings.EqualFold] is not answered; the handler publishes nothing
    and, when the envelope decodes, logs the unknown method and the
    warning that no error message is sent back. *)
Theorem unknown_method_dropped
    (X : Externals) (requestTimeout : Duration) (dic : Container)
    (client : mqtt.Client) (message : mqtt.Message)
    (pre : list string) (deviceName commandName method : string) :
  strings_Split (mqtt.Topic message) "/"
    = pre ++ [deviceName; commandName; method] ->
  strings_EqualFold X method "get" = false ->
  strings_EqualFold X method "set" = false ->
  publishes (commandRequestHandler X requestTimeout dic client message) = []
  /\
  (forall requestEnvelope,
     types_NewMessageEnvelopeFromJSON X (mqtt.Payload message)
       = inl requestEnvelope ->
     exists received,
       commandRequestHandler X requestTimeout dic client message
       = [Log DEBUG received;
          Log ERROR ("Unknown request method: " +:+ method
                     +:+ ", only 'get' or 'set' is allowed");
          noResponseWarning]).
Proof.
  intros Hsplit Hget Hset.
  apply commandTopicLevels_last3 in Hsplit.
  unfold commandRequestHandler. rewrite Hsplit, Hget, Hset.
  split.
  - destruct (types_NewMessageEnvelopeFromJSON X _); reflexivity.
  - intros requestEnvelope ->. eexists. reflexivity.
Qed.

Lemma unknown_method_dropped_witness :
  publishes (commandRequestHandler Scenario.externals Scenario.timeout
               (Scenario.dic Scenario.answeringBus) Scenario.broker
               (Scenario.message "edgex/command/request/sensor1/heartbeat/delete" "R1"))
  = [].
Proof.
  apply (unknown_method_dropped Scenario.externals Scenario.timeout
           (Scenario.dic Scenario.answeringBus) Scenario.broker
           (Scenario.message "edgex/command/request/sensor1/heartbeat/delete" "R1")
           ["edgex"; "command"; "request"] "sensor1" "heartbeat" "delete");
    vm_compute; reflexivity.
Defined.

(** C1 as the specification words it fails: with a decodable envelope on
    the five-level topic [.../sensor1/heartbeat/delete], whose method is
    neither [get] nor [set], nothing is published, neither on the
    response topic nor anywhere else. *)
Lemma unknown_method_counterexample :
  let message :=
    Scenario.message "edgex/command/request/sensor1/heartbeat/delete" "R1" in
  let run :=
    commandRequestHandler Scenario.externals Scenario.timeout
      (Scenario.dic Scenario.answeringBus) Scenario.broker message in
  Scenario.decode (mqtt.Payload message)
    = inl (Scenario.envelope "R1" 0 EmptyString ∅) /\
  strings_Split (mqtt.Topic message) "/"
    = ["edgex"; "command"; "request"; "sensor1"; "heartbeat"; "delete"] /\
  ascii_EqualFold "delete" "get" = false /\
  ascii_EqualFold "delete" "set" = false /\
  publishes run = [] /\
  ~ (exists payload,
       In (Published "edgex/command/response/sensor1/heartbeat/delete"
                     x01 false payload) run).
Proof.
  repeat split; try (vm_compute; reflexivity).
  intros [payload H]. vm_compute in H.
  repeat (destruct H as [H|H]; [discriminate H|]). exact H.
Qed.

(** ** Requests that are answered *)

(** The handler once the envelope decodes, the topic has its three last
    levels and the method is [get] or [set]: the routing call and what
    follows it. *)
Lemma commandRequestHandler_routed X requestTimeout dic client message
    requestEnvelope pre deviceName commandName method :
  types_NewMessageEnvelopeFromJSON X (mqtt.Payload message)
    = inl requestEnvelope ->
  strings_Split (mqtt.Topic message) "/"
    = pre ++ [deviceName; commandName; method] ->
  strings_EqualFold X method "get" = true \/
  strings_EqualFold X method "set" = true ->
  exists received,
    commandRequestHandler X requestTimeout dic client message
    = Log DEBUG received ::
      RouteCall (internalRequestPrefix X dic) deviceName commandName method ::
      match validateRequestTopic X (internalRequestPrefix X dic)
              deviceName commandName method dic with
      | inr err =>
          publishMessage X client
            (responseTopicFor X dic deviceName commandName method)
            (QoS (ExternalMQTT (ConfigurationFrom dic)))
            (Retain (ExternalMQTT (ConfigurationFrom dic)))
            (NewMessageEnvelopeWithError X (types.RequestID requestEnvelope) err)
      | inl (deviceServiceName, deviceRequestTopic) =>
          ParamsCall (types.QueryParams requestEnvelope) ::
          match validateGetCommandQueryParameters X
                  (types.QueryParams requestEnvelope) with
          | Some err =>
              publishMessage X client
                (responseTopicFor X dic deviceName commandName method)
                (QoS (ExternalMQTT (ConfigurationFrom dic)))
                (Retain (ExternalMQTT (ConfigurationFrom dic)))
                (NewMessageEnvelopeWithError X
                   (types.RequestID requestEnvelope) err)
          | None =>
              Log DEBUG ("Sending Command request to internal MessageBus. Topic: "
                         +:+ deviceRequestTopic +:+ ", Request-id: "
                         +:+ types.RequestID requestEnvelope
                         +:+ " Correlation-id: "
                         +:+ types.CorrelationID requestEnvelope) ::
              RequestCall requestEnvelope deviceServiceName
                          deviceRequestTopic requestTimeout ::
              match Request (MessagingClientFrom dic) requestEnvelope
                      deviceServiceName deviceRequestTopic requestTimeout with
              | inr err =>
                  publishMessage X client
                    (responseTopicFor X dic deviceName commandName method)
                    (QoS (ExternalMQTT (ConfigurationFrom dic)))
                    (Retain (ExternalMQTT (ConfigurationFrom dic)))
                    (NewMessageEnvelopeWithError X
                       (types.RequestID requestEnvelope)
                       ("Failed to send DeviceCommand request with internal MessageBus: "
                        +:+ err))
              | inl response =>
                  Log DEBUG ("Command response received from internal MessageBus. Topic: "
                             +:+ types.RequestID response +:+ ", Request-id: "
                             +:+ types.CorrelationID response
                             +:+ " Correlation-id: %!s(MISSING)") ::
                  publishMessage X client
                    (responseTopicFor X dic deviceName commandName method)
                    (QoS (ExternalMQTT (ConfigurationFrom dic)))
                    (Retain (ExternalMQTT (ConfigurationFrom dic)))
                    response
              end
          end
      end.
Proof.
  intros Hdecode Hsplit Hmethod.
  apply commandTopicLevels_last3 in Hsplit.
  unfold commandRequestHandler. rewrite Hdecode, Hsplit.
  assert (Hgate : negb (strings_EqualFold X method "get")
                  && negb (strings_EqualFold X method "set") = false).
  { destruct Hmethod as [-> | ->]; [reflexivity|].
    destruct (strings_EqualFold X method "get"); reflexivity. }
  rewrite Hgate. eexists. reflexivity.
Qed.

(** C2: with a decodable envelope, a topic of three or more levels and a
    method that is [get] or [set], a failure of the routing resolution,
    of the query-parameter validation or of the internal bus request
    makes the handler publish exactly one message, an error envelope
    with [ErrorCode = 1] and the request id of the request, on
    [<response-prefix>/<device>/<command>/<method>]. *)
Theorem error_answerability
    (X : Externals) (requestTimeout : Duration) (dic : Container)
    (client : mqtt.Client) (message : mqtt.Message)
    (requestEnvelope : types.MessageEnvelope)
    (pre : list string) (deviceName commandName method : string) :
  types_NewMessageEnvelopeFromJSON X (mqtt.Payload message)
    = inl requestEnvelope ->
  strings_Split (mqtt.Topic message) "/"
    = pre ++ [deviceName; commandName; method] ->
  strings_EqualFold X method "get" = true \/
  strings_EqualFold X method "set" = true ->
  (exists err,
     validateRequestTopic X (internalRequestPrefix X dic)
       deviceName commandName method dic = inr err) \/
  (exists err,
     validateGetCommandQueryParameters X (types.QueryParams requestEnvelope)
     = Some err) \/
  (exists deviceServiceName deviceRequestTopic err,
     validateRequestTopic X (internalRequestPrefix X dic)
       deviceName commandName method dic
     = inl (deviceServiceName, deviceRequestTopic) /\
     Request (MessagingClientFrom dic) requestEnvelope deviceServiceName
       deviceRequestTopic requestTimeout = inr err) ->
  exists responseEnvelope,
    types.ErrorCode responseEnvelope = 1 /\
    types.RequestID responseEnvelope = types.RequestID requestEnvelope /\
    publishes (commandRequestHandler X requestTimeout dic client message)
    = [Published
         (strings_Join
            [map_index (Topics (ExternalMQTT (ConfigurationFrom dic)))
                       (common_ExternalCommandResponseTopicPrefixKey X);
             deviceName; commandName; method] "/")
         (QoS (ExternalMQTT (ConfigurationFrom dic)))
         (Retain (ExternalMQTT (ConfigurationFrom dic)))
         (fst (json_Marshal X responseEnvelope))].
Proof.
  intros Hdecode Hsplit Hmethod Hfail.
  destruct (commandRequestHandler_routed X requestTimeout dic client message
              requestEnvelope pre deviceName commandName method
              Hdecode Hsplit Hmethod) as [received ->].
  fold (responseTopicFor X dic deviceName commandName method).
  destruct (validateRequestTopic X _ _ _ _ dic)
    as [[deviceServiceName deviceRequestTopic]|routeErr] eqn:Hroute.
  - destruct (validateGetCommandQueryParameters X _) as [paramsErr|] eqn:Hparams.
    + eexists. split; [|split]; [| |step_handler; reflexivity]; reflexivity.
    + destruct Hfail as [[err H]|[[err H]|(svc & topic & err & H1 & H2)]];
        try discriminate.
      injection H1 as <- <-. rewrite H2.
      eexists. split; [|split]; [| |step_handler; reflexivity]; reflexivity.
  - eexists. split; [|split]; [| |step_handler; reflexivity]; reflexivity.
Qed.

Lemma error_answerability_witness :
  exists responseEnvelope,
    types.ErrorCode responseEnvelope = 1 /\
    types.RequestID responseEnvelope = "R1" /\
    publishes (commandRequestHandler Scenario.externals Scenario.timeout
                 (Scenario.dic Scenario.silentBus) Scenario.broker
                 (Scenario.message "edgex/command/request/sensor1/heartbeat/get" "R1"))
    = [Published "edgex/command/response/sensor1/heartbeat/get" x01 false
                 (fst (Scenario.marshal responseEnvelope))].
Proof.
  apply (error_answerability Scenario.externals Scenario.timeout
           (Scenario.dic Scenario.silentBus) Scenario.broker
           (Scenario.message "edgex/command/request/sensor1/heartbeat/get" "R1")
           (Scenario.envelope "R1" 0 EmptyString ∅)
           ["edgex"; "command"; "request"] "sensor1" "heartbeat" "get").
  - vm_compute. reflexivity.
  - vm_compute. reflexivity.
  - left. vm_compute. reflexivity.
  - right. right.
    exists "svcA", "internal/svcA/sensor1/heartbeat/get", "request timed out".
    split; vm_compute; reflexivity.
Defined.

(** C6: when the internal bus answers, the handler publishes the
    envelope it received, as it is, on
    [<response-prefix>/<device>/<command>/<method>], and nothing else. *)
Theorem success_passthrough
    (X : Externals) (requestTimeout : Duration) (dic : Container)
    (client : mqtt.Client) (message : mqtt.Message)
    (requestEnvelope response : types.MessageEnvelope)
    (pre : list string) (deviceName commandName method : string)
    (deviceServiceName deviceRequestTopic : string) :
  types_NewMessageEnvelopeFromJSON X (mqtt.Payload message)
    = inl requestEnvelope ->
  strings_Split (mqtt.Topic message) "/"
    = pre ++ [deviceName; commandName; method] ->
  strings_EqualFold X method "get" = true \/
  strings_EqualFold X method "set" = true ->
  validateRequestTopic X (internalRequestPrefix X dic)
    deviceName commandName method dic
  = inl (deviceServiceName, deviceRequestTopic) ->
  validateGetCommandQueryParameters X (types.QueryParams requestEnvelope)
  = None ->
  Request (MessagingClientFrom dic) requestEnvelope deviceServiceName
    deviceRequestTopic requestTimeout = inl response ->
  publishes (commandRequestHandler X requestTimeout dic client message)
  = [Published
       (strings_Join
          [map_index (Topics (ExternalMQTT (ConfigurationFrom dic)))
                     (common_ExternalCommandResponseTopicPrefixKey X);
           deviceName; commandName; method] "/")
       (QoS (ExternalMQTT (ConfigurationFrom dic)))
       (Retain (ExternalMQTT (ConfigurationFrom dic)))
       (fst (json_Marshal X response))]
  /\
  In (RequestCall requestEnvelope deviceServiceName deviceRequestTopic
                  requestTimeout)
     (commandRequestHandler X requestTimeout dic client message).
Proof.
  intros Hdecode Hsplit Hmethod Hroute Hparams Hbus.
  destruct (commandRequestHandler_routed X requestTimeout dic client message
              requestEnvelope pre deviceName commandName method
              Hdecode Hsplit Hmethod) as [received ->].
  rewrite Hroute, Hparams, Hbus. split.
  - step_handler. reflexivity.
  - do 4 right. left. reflexivity.
Qed.

Lemma success_passthrough_witness :
  publishes (commandRequestHandler Scenario.externals Scenario.timeout
               (Scenario.dic Scenario.answeringBus) Scenario.broker
               (Scenario.message "edgex/command/request/sensor1/heartbeat/get" "R1"))
  = [Published "edgex/command/response/sensor1/heartbeat/get" x01 false
       (fst (Scenario.marshal (Scenario.envelope "R1" 0 "42" ∅)))].
Proof.
  apply (success_passthrough Scenario.externals Scenario.timeout
           (Scenario.dic Scenario.answeringBus) Scenario.broker
           (Scenario.message "edgex/command/request/sensor1/heartbeat/get" "R1")
           (Scenario.envelope "R1" 0 EmptyString ∅)
           (Scenario.envelope "R1" 0 "42" ∅)
           ["edgex"; "command"; "request"] "sensor1" "heartbeat" "get"
           "svcA" "internal/svcA/sensor1/heartbeat/get").
  - vm_compute. reflexivity.
  - vm_compute. reflexivity.
  - left. vm_compute. reflexivity.
  - vm_compute. reflexivity.
  - vm_compute. reflexivity.
  - vm_compute. reflexivity.
Defined.

(** ** Failure of the internal bus *)

(** C5, as the code has it: when the internal bus request fails, the
    payload of the error envelope is the text [Failed to send
    DeviceCommand request with internal MessageBus: ] followed by the
    failure message of the bus. *)
Theorem bus_failure_payload
    (X : Externals) (requestTimeout : Duration) (dic : Container)
    (client : mqtt.Client) (message : mqtt.Message)
    (requestEnvelope : types.MessageEnvelope)
    (pre : list string) (deviceName commandName method : string)
    (deviceServiceName deviceRequestTopic : string) (err : error) :
  types_NewMessageEnvelopeFromJSON X (mqtt.Payload message)
    = inl requestEnvelope ->
  strings_Split (mqtt.Topic message) "/"
    = pre ++ [deviceName; commandName; method] ->
  strings_EqualFold X method "get" = true \/
  strings_EqualFold X method "set" = true ->
  validateRequestTopic X (internalRequestPrefix X dic)
    deviceName commandName method dic
  = inl (deviceServiceName, deviceRequestTopic) ->
  validateGetCommandQueryParameters X (types.QueryParams requestEnvelope)
  = None ->
  Request (MessagingClientFrom dic) requestEnvelope deviceServiceName
    deviceRequestTopic requestTimeout = inr err ->
  exists responseEnvelope,
    types.Payload responseEnvelope
    = bytes_of ("Failed to send DeviceCommand request with internal MessageBus: "
                +:+ err) /\
    types.ErrorCode responseEnvelope = 1 /\
    types.RequestID responseEnvelope = types.RequestID requestEnvelope /\
    publishes (commandRequestHandler X requestTimeout dic client message)
    = [Published (responseTopicFor X dic deviceName commandName method)
         (QoS (ExternalMQTT (ConfigurationFrom dic)))
         (Retain (ExternalMQTT (ConfigurationFrom dic)))
         (fst (json_Marshal X responseEnvelope))].
Proof.
  intros Hdecode Hsplit Hmethod Hroute Hparams Hbus.
  destruct (commandRequestHandler_routed X requestTimeout dic client message
              requestEnvelope pre deviceName commandName method
              Hdecode Hsplit Hmethod) as [received ->].
  rewrite Hroute, Hparams, Hbus.
  exists (NewMessageEnvelopeWithError X (types.RequestID requestEnvelope)
            ("Failed to send DeviceCommand request with internal MessageBus: "
             +:+ err)).
  split; [reflexivity|]. split; [reflexivity|]. split; [reflexivity|].
  step_handler. reflexivity.
Qed.

Lemma bus_failure_payload_witness :
  exists responseEnvelope,
    types.Payload responseEnvelope
    = bytes_of "Failed to send DeviceCommand request with internal MessageBus: request timed out" /\
    types.ErrorCode responseEnvelope = 1 /\
    types.RequestID responseEnvelope = "R1" /\
    publishes (commandRequestHandler Scenario.externals Scenario.timeout
                 (Scenario.dic Scenario.silentBus) Scenario.broker
                 (Scenario.message "edgex/command/request/sensor1/heartbeat/get" "R1"))
    = [Published "edgex/command/response/sensor1/heartbeat/get" x01 false
                 (fst (Scenario.marshal responseEnvelope))].
Proof.
  apply (bus_failure_payload Scenario.externals Scenario.timeout
           (Scenario.dic Scenario.silentBus) Scenario.broker
           (Scenario.message "edgex/command/request/sensor1/heartbeat/get" "R1")
           (Scenario.envelope "R1" 0 EmptyString ∅)
           ["edgex"; "command"; "request"] "sensor1" "heartbeat" "get"
           "svcA" "internal/svcA/sensor1/heartbeat/get" "request timed out");
    try (vm_compute; reflexivity).
  left. vm_compute. reflexivity.
Defined.

(** C5 as the specification words it fails: the bus fails with [request
    timed out]; the payload published is not that message but the
    message behind the handler's own prefix. *)
Lemma bus_failure_counterexample :
  let message :=
    Scenario.message "edgex/command/request/sensor1/heartbeat/get" "R1" in
  let run :=
    commandRequestHandler Scenario.externals Scenario.timeout
      (Scenario.dic Scenario.silentBus) Scenario.broker message in
  let sent :=
    NewMessageEnvelopeWithError Scenario.externals "R1"
      "Failed to send DeviceCommand request with internal MessageBus: request timed out" in
  let claimed :=
    NewMessageEnvelopeWithError Scenario.externals "R1" "request timed out" in
  Request Scenario.silentBus (Scenario.envelope "R1" 0 EmptyString ∅)
    "svcA" "internal/svcA/sensor1/heartbeat/get" Scenario.timeout
    = inr "request timed out" /\
  publishes run
    = [Published "edgex/command/response/sensor1/heartbeat/get" x01 false
         (fst (Scenario.marshal sent))] /\
  fst (Scenario.marshal sent)
    = bytes_of "R1|1|Failed to send DeviceCommand request with internal MessageBus: request timed out" /\
  types.Payload sent <> bytes_of "request timed out" /\
  publishes run
    <> [Published "edgex/command/response/sensor1/heartbeat/get" x01 false
          (fst (Scenario.marshal claimed))].
Proof.
  repeat split; try (vm_compute; reflexivity); vm_compute; discriminate.
Qed.

(** ** Query-parameter validation *)

(** C4, as the code has it: once routing has resolved, the query
    parameters of every request are validated, whether the method is
    [get] or [set]; a request whose parameters are rejected is answered
    with an error envelope carrying the validation message and is not
    sent to the internal bus. *)
Theorem query_params_checked_for_every_method
    (X : Externals) (requestTimeout : Duration) (dic : Container)
    (client : mqtt.Client) (message : mqtt.Message)
    (requestEnvelope : types.MessageEnvelope)
    (pre : list string) (deviceName commandName method : string)
    (deviceServiceName deviceRequestTopic : string) :
  types_NewMessageEnvelopeFromJSON X (mqtt.Payload message)
    = inl requestEnvelope ->
  strings_Split (mqtt.Topic message) "/"
    = pre ++ [deviceName; commandName; method] ->
  strings_EqualFold X method "get" = true \/
  strings_EqualFold X method "set" = true ->
  validateRequestTopic X (internalRequestPrefix X dic)
    deviceName commandName method dic
  = inl (deviceServiceName, deviceRequestTopic) ->
  In (ParamsCall (types.QueryParams requestEnvelope))
     (commandRequestHandler X requestTimeout dic client message)
  /\
  (forall err,
     validateGetCommandQueryParameters X (types.QueryParams requestEnvelope)
     = Some err ->
     publishes (commandRequestHandler X requestTimeout dic client message)
     = [Published (responseTopicFor X dic deviceName commandName method)
          (QoS (ExternalMQTT (ConfigurationFrom dic)))
          (Retain (ExternalMQTT (ConfigurationFrom dic)))
          (fst (json_Marshal X
                  (NewMessageEnvelopeWithError X
                     (types.RequestID requestEnvelope) err)))]
     /\
     forall request service topic timeout,
       ~ In (RequestCall request service topic timeout)
            (commandRequestHandler X requestTimeout dic client message)).
Proof.
  intros Hdecode Hsplit Hmethod Hroute.
  destruct (commandRequestHandler_routed X requestTimeout dic client message
              requestEnvelope pre deviceName commandName method
              Hdecode Hsplit Hmethod) as [received ->].
  rewrite Hroute. split.
  - right. right. left. reflexivity.
  - intros err ->. split; [step_handler; reflexivity|].
    intros request service topic timeout Hin.
    destruct Hin as [H|[H|[H|H]]]; try discriminate H.
    apply publishMessage_events in H as [H|H]; discriminate H.
Qed.

Lemma query_params_checked_witness :
  let run :=
    commandRequestHandler Scenario.externals Scenario.timeout
      (Scenario.dic Scenario.answeringBus) Scenario.broker
      (Scenario.message "edgex/command/request/sensor1/heartbeat/set" "R2") in
  In (ParamsCall {[ "ds-returnevent" := "maybe" ]}) run /\
  publishes run
  = [Published "edgex/command/response/sensor1/heartbeat/set" x01 false
       (bytes_of "R2|1|invalid query parameter, maybe has to be 'true' or 'false'")].
Proof.
  intros run.
  destruct (query_params_checked_for_every_method Scenario.externals
              Scenario.timeout (Scenario.dic Scenario.answeringBus)
              Scenario.broker
              (Scenario.message "edgex/command/request/sensor1/heartbeat/set" "R2")
              (Scenario.envelope "R2" 0 EmptyString
                 {[ "ds-returnevent" := "maybe" ]})
              ["edgex"; "command"; "request"] "sensor1" "heartbeat" "set"
              "svcA" "internal/svcA/sensor1/heartbeat/set")
    as [Hcall Hanswer].
  - vm_compute. reflexivity.
  - vm_compute. reflexivity.
  - right. vm_compute. reflexivity.
  - vm_compute. reflexivity.
  - split; [exact Hcall|].
    destruct (Hanswer "invalid query parameter, maybe has to be 'true' or 'false'")
      as [Hpub _]; [vm_compute; reflexivity|].
    exact Hpub.
Defined.

(** C4 as the specification words it fails: a [set] request whose query
    parameters the validator rejects has them checked all the same, is
    answered with the validation error, and never reaches the bus. *)
Lemma set_params_counterexample :
  let message :=
    Scenario.message "edgex/command/request/sensor1/heartbeat/set" "R2" in
  let run :=
    commandRequestHandler Scenario.externals Scenario.timeout
      (Scenario.dic Scenario.answeringBus) Scenario.broker message in
  ascii_EqualFold "set" "get" = false /\
  ascii_EqualFold "set" "set" = true /\
  Scenario.decode (mqtt.Payload message)
    = inl (Scenario.envelope "R2" 0 EmptyString
             {[ "ds-returnevent" := "maybe" ]}) /\
  In (ParamsCall {[ "ds-returnevent" := "maybe" ]}) run /\
  publishes run
    = [Published "edgex/command/response/sensor1/heartbeat/set" x01 false
         (bytes_of "R2|1|invalid query parameter, maybe has to be 'true' or 'false'")] /\
  ~ (exists request service topic timeout,
       In (RequestCall request service topic timeout) run).
Proof.
  repeat split; try (vm_compute; reflexivity).
  - vm_compute. right. right. left. reflexivity.
  - intros (request & service & topic & timeout & H). vm_compute in H.
    repeat (destruct H as [H|H]; [discriminate H|]). exact H.
Qed.

(** ** Parsing the command topic *)

(** C7: a topic of three or more levels parses to its last three levels,
    in order, whatever comes before them; a topic of fewer than three
    levels does not parse.  Levels are the pieces [strings.Split] cuts at
    each [/]; joining any list of [/]-free levels that ends in
    [d; c; m] gives a topic that parses to [(d, c, m)]. *)
Theorem command_topic_parsing (topic : string) :
  (forall pre d c m,
     strings_Split topic "/" = pre ++ [d; c; m] ->
     commandTopicLevels topic = Some (Some (d, c, m)))
  /\
  ((3 <= length (strings_Split topic "/"))%nat ->
   exists pre d c m,
     strings_Split topic "/" = pre ++ [d; c; m] /\
     commandTopicLevels topic = Some (Some (d, c, m)))
  /\
  ((length (strings_Split topic "/") < 3)%nat ->
   commandTopicLevels topic = None)
  /\
  (forall pre d c m,
     topic = strings_Join (pre ++ [d; c; m]) "/" ->
     Forall (fun level => has_byte "/" level = false) (pre ++ [d; c; m]) ->
     commandTopicLevels topic = Some (Some (d, c, m))).
Proof.
  split; [|split; [|split]].
  - intros pre d c m. apply commandTopicLevels_last3.
  - intros Hlen. destruct (last3_exists _ Hlen) as (pre & d & c & m & E).
    exists pre, d, c, m. split; [exact E|].
    eapply commandTopicLevels_last3; exact E.
  - apply commandTopicLevels_short.
  - intros pre d c m -> Hlevels.
    apply (commandTopicLevels_last3 _ pre).
    apply (strings_Split_Join (pre ++ [d; c; m]) "/"); [|exact Hlevels].
    destruct pre; discriminate.
Qed.

Lemma command_topic_parsing_witness :
  commandTopicLevels "edgex/command/request/sensor1/heartbeat/get"
    = Some (Some ("sensor1", "heartbeat", "get")) /\
  commandTopicLevels "sensor1/heartbeat/get"
    = Some (Some ("sensor1", "heartbeat", "get")) /\
  commandTopicLevels "heartbeat/get" = None.
Proof.
  split; [|split].
  - apply (proj1 (command_topic_parsing
                    "edgex/command/request/sensor1/heartbeat/get")
             ["edgex"; "command"; "request"]).
    vm_compute. reflexivity.
  - apply (proj2 (proj2 (proj2 (command_topic_parsing
                                  "sensor1/heartbeat/get"))) []).
    + vm_compute. reflexivity.
    + repeat constructor.
  - apply (proj1 (proj2 (proj2 (command_topic_parsing "heartbeat/get")))).
    vm_compute. lia.
Defined.

(** ** The query handler *)

Lemma slice_index_last (pre : list string) (x : string) :
  slice_index (pre ++ [x]) (len (pre ++ [x]) - 1) = Some x.
Proof. apply (slice_index_from_end pre [] x). Qed.

Lemma strings_Split_last s sep :
  exists pre level, strings_Split s sep = pre ++ [level].
Proof.
  destruct (exists_last (strings_Split_nonempty s sep)) as (pre & level & E).
  eauto.
Qed.

(** The query handler once the envelope decodes and a response topic is
    configured. *)
Lemma commandQueryHandler_answered X dic client message requestEnvelope
    pre lastLevel :
  types_NewMessageEnvelopeFromJSON X (mqtt.Payload message)
    = inl requestEnvelope ->
  queryResponseTopic X dic <> EmptyString ->
  strings_Split (mqtt.Topic message) "/" = pre ++ [lastLevel] ->
  exists received responseEnvelope,
    commandQueryHandler X dic client message
    = Log DEBUG received ::
      QueryCall requestEnvelope
        (if strings_EqualFold X lastLevel (common_All X)
         then common_All X else lastLevel) ::
      publishMessage X client (queryResponseTopic X dic)
        (QoS (ExternalMQTT (ConfigurationFrom dic)))
        (Retain (ExternalMQTT (ConfigurationFrom dic)))
        responseEnvelope.
Proof.
  intros Hdecode Htopic Hsplit. unfold commandQueryHandler.
  rewrite Hdecode. cbv zeta.
  destruct (String.eqb_spec (queryResponseTopic X dic) EmptyString)
    as [E|_]; [contradiction|].
  rewrite Hsplit, slice_index_last. eexists. eexists. reflexivity.
Qed.

Lemma commandQueryHandler_queryArguments X dic client message :
  queryArguments (commandQueryHandler X dic client message) = [] \/
  exists pre lastLevel,
    strings_Split (mqtt.Topic message) "/" = pre ++ [lastLevel] /\
    queryArguments (commandQueryHandler X dic client message)
    = [if strings_EqualFold X lastLevel (common_All X)
       then common_All X else lastLevel].
Proof.
  destruct (types_NewMessageEnvelopeFromJSON X (mqtt.Payload message))
    as [requestEnvelope|err] eqn:Hdecode.
  - destruct (String.eqb_spec (queryResponseTopic X dic) EmptyString)
      as [E|Hne].
    + left. unfold commandQueryHandler. rewrite Hdecode. cbv zeta.
      rewrite E. reflexivity.
    + right. destruct (strings_Split_last (mqtt.Topic message) "/")
        as (pre & lastLevel & Hsplit).
      exists pre, lastLevel. split; [exact Hsplit|].
      destruct (commandQueryHandler_answered X dic client message
                  requestEnvelope pre lastLevel Hdecode Hne Hsplit)
        as (received & responseEnvelope & ->).
      step_handler. reflexivity.
  - left. unfold commandQueryHandler. rewrite Hdecode. reflexivity.
Qed.

(** C8: when the last level of a query topic equals the [all] keyword
    under [strings.EqualFold], whatever its casing, the device name the
    handler hands to the command-query collaborator is the keyword
    itself, [common.All]; the collaborator is called once whenever the
    envelope decodes and a response topic is configured. *)
Theorem query_all_normalised
    (X : Externals) (dic : Container) (client : mqtt.Client)
    (message : mqtt.Message) (pre : list string) (lastLevel : string) :
  strings_Split (mqtt.Topic message) "/" = pre ++ [lastLevel] ->
  strings_EqualFold X lastLevel (common_All X) = true ->
  Forall (fun deviceName => deviceName = common_All X)
         (queryArguments (commandQueryHandler X dic client message))
  /\
  (forall requestEnvelope,
     types_NewMessageEnvelopeFromJSON X (mqtt.Payload message)
       = inl requestEnvelope ->
     queryResponseTopic X dic <> EmptyString ->
     queryArguments (commandQueryHandler X dic client message)
       = [common_All X] /\
     In (QueryCall requestEnvelope (common_All X))
        (commandQueryHandler X dic client message)).
Proof.
  intros Hsplit Hfold. split.
  - destruct (commandQueryHandler_queryArguments X dic client message)
      as [-> | (pre' & lastLevel' & Hsplit' & ->)]; [constructor|].
    rewrite Hsplit in Hsplit'. apply app_inj_tail in Hsplit' as [_ <-].
    rewrite Hfold. repeat constructor.
  - intros requestEnvelope Hdecode Htopic.
    destruct (commandQueryHandler_answered X dic client message
                requestEnvelope pre lastLevel Hdecode Htopic Hsplit)
      as (received & responseEnvelope & ->).
    rewrite Hfold. split; [step_handler; reflexivity|].
    right. left. reflexivity.
Qed.

Lemma query_all_normalised_witness :
  let arguments topic :=
    queryArguments (commandQueryHandler Scenario.externals
                      (Scenario.dic Scenario.answeringBus) Scenario.broker
                      (Scenario.message topic "R1")) in
  arguments "edgex/commandquery/request/All" = ["all"] /\
  arguments "edgex/commandquery/request/all" = ["all"] /\
  arguments "edgex/commandquery/request/ALL" = ["all"].
Proof.
  intros arguments. split; [|split].
  - apply (query_all_normalised Scenario.externals
             (Scenario.dic Scenario.answeringBus) Scenario.broker
             (Scenario.message "edgex/commandquery/request/All" "R1")
             ["edgex"; "commandquery"; "request"] "All")
      with (requestEnvelope := Scenario.envelope "R1" 0 EmptyString ∅);
      vm_compute; (reflexivity || discriminate).
  - apply (query_all_normalised Scenario.externals
             (Scenario.dic Scenario.answeringBus) Scenario.broker
             (Scenario.message "edgex/commandquery/request/all" "R1")
             ["edgex"; "commandquery"; "request"] "all")
      with (requestEnvelope := Scenario.envelope "R1" 0 EmptyString ∅);
      vm_compute; (reflexivity || discriminate).
  - apply (query_all_normalised Scenario.externals
             (Scenario.dic Scenario.answeringBus) Scenario.broker
             (Scenario.message "edgex/commandquery/request/ALL" "R1")
             ["edgex"; "commandquery"; "request"] "ALL")
      with (requestEnvelope := Scenario.envelope "R1" 0 EmptyString ∅);
      vm_compute; (reflexivity || discriminate).
Defined.

Lemma string_append_assoc (a b c : string) :
  (a +:+ b) +:+ c = a +:+ (b +:+ c).
Proof.
  induction a as [|x a IH]; [reflexivity|].
  change (String x ((a +:+ b) +:+ c) = String x (a +:+ (b +:+ c))).
  rewrite IH. reflexivity.
Qed.

Lemma strings_Join_snoc (pre : list string) (x sep : string) :
  pre <> [] ->
  strings_Join (pre ++ [x]) sep = strings_Join pre sep +:+ sep +:+ x.
Proof.
  induction pre as [|a pre IH]; [congruence|]. intros _.
  destruct pre as [|b pre]; [reflexivity|].
  change (a +:+ sep +:+ strings_Join ((b :: pre) ++ [x]) sep
          = (a +:+ sep +:+ strings_Join (b :: pre) sep) +:+ sep +:+ x).
  rewrite IH by discriminate.
  rewrite !string_append_assoc. reflexivity.
Qed.

(** The last level of a topic is what follows its last [/], or the whole
    topic when it has none. *)
Lemma last_level_suffix (topic : string) :
  exists pre lastLevel,
    strings_Split topic "/" = pre ++ [lastLevel] /\
    has_byte "/" lastLevel = false /\
    (pre = [] /\ topic = lastLevel \/
     topic = strings_Join pre "/" +:+ "/" +:+ lastLevel).
Proof.
  destruct (strings_Split_last topic "/") as (pre & lastLevel & E).
  exists pre, lastLevel. split; [exact E|]. split.
  - pose proof (strings_Split_levels topic "/") as H. rewrite E in H.
    apply Forall_app in H as [_ H]. inversion H; assumption.
  - pose proof (strings_Join_Split topic "/") as H. rewrite E in H.
    destruct pre as [|a pre].
    + left. split; [reflexivity|]. symmetry. exact H.
    + right. rewrite <- H. apply strings_Join_snoc. discriminate.
Qed.

Lemma commandQueryHandler_no_panic X dic client message :
  ~ In Panic (commandQueryHandler X dic client message).
Proof.
  destruct (types_NewMessageEnvelopeFromJSON X (mqtt.Payload message))
    as [requestEnvelope|err] eqn:Hdecode.
  - destruct (String.eqb_spec (queryResponseTopic X dic) EmptyString)
      as [E|Hne].
    + unfold commandQueryHandler. rewrite Hdecode. cbv zeta. rewrite E.
      intros [H|[H|[H|[]]]]; discriminate H.
    + destruct (strings_Split_last (mqtt.Topic message) "/")
        as (pre & lastLevel & Hsplit).
      destruct (commandQueryHandler_answered X dic client message
                  requestEnvelope pre lastLevel Hdecode Hne Hsplit)
        as (received & responseEnvelope & ->).
      intros [H|[H|H]]; try discriminate H.
      apply publishMessage_events in H as [H|H]; discriminate H.
  - unfold commandQueryHandler. rewrite Hdecode.
    intros [H|[H|[H|[]]]]; discriminate H.
Qed.

(** C10, as the code has it: for every topic string, the empty one and
    one without [/] included, reading the last level cannot fail; the
    device name is what follows the last [/] (the whole topic when it has
    none, possibly empty), and the handler never panics.  It goes on to
    the command-query collaborator, once, for every decodable request
    for which a query-response topic is configured. *)
Theorem query_device_name_total
    (X : Externals) (dic : Container) (client : mqtt.Client)
    (message : mqtt.Message) :
  (exists pre lastLevel,
     strings_Split (mqtt.Topic message) "/" = pre ++ [lastLevel] /\
     slice_index (strings_Split (mqtt.Topic message) "/")
                 (len (strings_Split (mqtt.Topic message) "/") - 1)
       = Some lastLevel /\
     has_byte "/" lastLevel = false /\
     (pre = [] /\ mqtt.Topic message = lastLevel \/
      mqtt.Topic message = strings_Join pre "/" +:+ "/" +:+ lastLevel) /\
     (forall requestEnvelope,
        types_NewMessageEnvelopeFromJSON X (mqtt.Payload message)
          = inl requestEnvelope ->
        queryResponseTopic X dic <> EmptyString ->
        let deviceName :=
          if strings_EqualFold X lastLevel (common_All X)
          then common_All X else lastLevel in
        In (QueryCall requestEnvelope deviceName)
           (commandQueryHandler X dic client message) /\
        queryArguments (commandQueryHandler X dic client message)
          = [deviceName]))
  /\
  ~ In Panic (commandQueryHandler X dic client message).
Proof.
  split; [|apply commandQueryHandler_no_panic].
  destruct (last_level_suffix (mqtt.Topic message))
    as (pre & lastLevel & Hsplit & Hlevel & Hsuffix).
  exists pre, lastLevel. split; [exact Hsplit|]. split.
  { rewrite Hsplit. apply slice_index_last. }
  split; [exact Hlevel|]. split; [exact Hsuffix|].
  intros requestEnvelope Hdecode Htopic deviceName.
  destruct (commandQueryHandler_answered X dic client message
              requestEnvelope pre lastLevel Hdecode Htopic Hsplit)
    as (received & responseEnvelope & ->).
  split; [right; left; reflexivity|].
  step_handler. reflexivity.
Qed.

Lemma query_device_name_total_witness :
  let arguments topic :=
    queryArguments (commandQueryHandler Scenario.externals
                      (Scenario.dic Scenario.answeringBus) Scenario.broker
                      (Scenario.message topic "R1")) in
  arguments EmptyString = [EmptyString] /\
  arguments "sensor1" = ["sensor1"] /\
  arguments "edgex/commandquery/request/" = [EmptyString].
Proof.
  intros arguments.
  assert (H : forall topic,
            exists lastLevel,
              slice_index (strings_Split topic "/")
                          (len (strings_Split topic "/") - 1)
                = Some lastLevel /\
              arguments topic
                = [if ascii_EqualFold lastLevel "all"
                   then "all" else lastLevel]).
  { intros topic.
    destruct (query_device_name_total Scenario.externals
                (Scenario.dic Scenario.answeringBus) Scenario.broker
                (Scenario.message topic "R1"))
      as [(pre & lastLevel & _ & Hindex & _ & _ & Hcall) _].
    exists lastLevel. split; [exact Hindex|].
    apply (Hcall (Scenario.envelope "R1" 0 EmptyString ∅)).
    - vm_compute. reflexivity.
    - vm_compute. discriminate. }
  split; [|split].
  - destruct (H EmptyString) as (lastLevel & Hindex & ->).
    vm_compute in Hindex. injection Hindex as <-. reflexivity.
  - destruct (H "sensor1") as (lastLevel & Hindex & ->).
    vm_compute in Hindex. injection Hindex as <-. reflexivity.
  - destruct (H "edgex/commandquery/request/") as (lastLevel & Hindex & ->).
    vm_compute in Hindex. injection Hindex as <-. reflexivity.
Defined.

(** C10 as the specification words it fails in its last clause: a
    decodable request does not reach the collaborator when no
    query-response topic is configured; the handler returns before it
    looks at the topic. *)
Lemma query_unconfigured_counterexample :
  let message :=
    Scenario.message "edgex/commandquery/request/sensor1" "R1" in
  let run :=
    commandQueryHandler Scenario.externals Scenario.bareDic
      Scenario.broker message in
  Scenario.decode (mqtt.Payload message)
    = inl (Scenario.envelope "R1" 0 EmptyString ∅) /\
  queryArguments run = [] /\
  ~ (exists request deviceName, In (QueryCall request deviceName) run) /\
  run = [Log DEBUG "Received command query request from external message broker on topic 'edgex/commandquery/request/sensor1' with 2 bytes";
         Log ERROR "QueryResponseTopic not provided in External.Topics";
         Log WARN "Not publishing error message back due to insufficient information on response topic"].
Proof.
  repeat split; try (vm_compute; reflexivity).
  intros (request & deviceName & H). vm_compute in H.
  repeat (destruct H as [H|H]; [discriminate H|]). exact H.
Qed.

(** ** The response publisher, again *)

(** C9: [publishMessage] makes exactly one publish call, with the bytes
    the serializer gave, whether or not the serializer also gave an
    error; everything else it does is logging.  When the broker reports
    a failure the run ends with one error log; there is no second
    publish. *)
Theorem publishMessage_publishes_once
    (X : Externals) (client : mqtt.Client) (responseTopic : string)
    (qos : byte) (retain : bool) (message : types.MessageEnvelope) :
  publishes (publishMessage X client responseTopic qos retain message)
  = [Published responseTopic qos retain (fst (json_Marshal X message))]
  /\
  (forall e,
     In e (publishMessage X client responseTopic qos retain message) ->
     is_log e = true \/
     e = Published responseTopic qos retain (fst (json_Marshal X message)))
  /\
  (forall X',
     fst (json_Marshal X' message) = fst (json_Marshal X message) ->
     publishMessage X' client responseTopic qos retain message
     = publishMessage X client responseTopic qos retain message)
  /\
  (forall err,
     mqtt.Publish client responseTopic qos retain
       (fst (json_Marshal X message))
     = {| mqtt.Wait := true; mqtt.Error := Some err |} ->
     exists before,
       Forall (fun e => is_log e = true) before /\
       publishMessage X client responseTopic qos retain message
       = before ++
         [Published responseTopic qos retain (fst (json_Marshal X message));
          Log ERROR ("Could not publish to external message broker on topic '"
                     +:+ responseTopic +:+ "': " +:+ err)]).
Proof.
  split; [apply publishes_publishMessage|].
  split; [intros e; apply publishMessage_events|].
  split.
  - intros X' E. unfold publishMessage. rewrite E. reflexivity.
  - intros err Htoken. unfold publishMessage. cbv zeta. rewrite Htoken.
    eexists. split; [|reflexivity].
    destruct (types.ErrorCode message =? 1); repeat constructor.
Qed.

Lemma publishMessage_publishes_once_witness :
  exists before,
    Forall (fun e => is_log e = true) before /\
    publishMessage (Scenario.externalsWith Scenario.failingMarshal)
      Scenario.deafBroker "edgex/commandquery/response" x01 false
      (Scenario.envelope "R1" 1 "no such device" ∅)
    = before ++
      [Published "edgex/commandquery/response" x01 false [];
       Log ERROR "Could not publish to external message broker on topic 'edgex/commandquery/response': not connected"].
Proof.
  apply (proj2 (proj2 (proj2
           (publishMessage_publishes_once
              (Scenario.externalsWith Scenario.failingMarshal)
              Scenario.deafBroker "edgex/commandquery/response" x01 false
              (Scenario.envelope "R1" 1 "no such device" ∅))))
           "not connected").
  reflexivity.
Defined.

(** ** The shape of a run *)

(** Every run of the command request handler is either a drop, three
    log lines, or an answer: the envelope decoded, the topic ended in
    three levels and the method was [get] or [set]. *)
Lemma commandRequestHandler_cases X requestTimeout dic client message :
  (exists received reason,
     commandRequestHandler X requestTimeout dic client message
     = [Log DEBUG received; Log ERROR reason; noResponseWarning] /\
     ((exists err,
         types_NewMessageEnvelopeFromJSON X (mqtt.Payload message) = inr err)
      \/ (length (strings_Split (mqtt.Topic message) "/") < 3)%nat
      \/ (exists pre d c m,
            strings_Split (mqtt.Topic message) "/" = pre ++ [d; c; m] /\
            strings_EqualFold X m "get" = false /\
            strings_EqualFold X m "set" = false)))
  \/
  (exists requestEnvelope pre d c m,
     types_NewMessageEnvelopeFromJSON X (mqtt.Payload message)
       = inl requestEnvelope /\
     strings_Split (mqtt.Topic message) "/" = pre ++ [d; c; m] /\
     (strings_EqualFold X m "get" = true \/
      strings_EqualFold X m "set" = true)).
Proof.
  destruct (types_NewMessageEnvelopeFromJSON X (mqtt.Payload message))
    as [requestEnvelope|err] eqn:Hdecode.
  - destruct (Nat.lt_ge_cases
                (length (strings_Split (mqtt.Topic message) "/")) 3)
      as [Hshort|Hlong].
    + left. unfold commandRequestHandler.
      rewrite Hdecode, (commandTopicLevels_short _ Hshort).
      eexists. eexists. split; [reflexivity|]. right. left. exact Hshort.
    + destruct (last3_exists _ Hlong) as (pre & d & c & m & Hsplit).
      destruct (strings_EqualFold X m "get") eqn:Hget.
      { right. exists requestEnvelope, pre, d, c, m. auto. }
      destruct (strings_EqualFold X m "set") eqn:Hset.
      { right. exists requestEnvelope, pre, d, c, m. auto. }
      left. unfold commandRequestHandler.
      rewrite Hdecode, (commandTopicLevels_last3 _ _ _ _ _ Hsplit), Hget, Hset.
      eexists. eexists. split; [reflexivity|]. right. right.
      exists pre, d, c, m. auto.
  - left. unfold commandRequestHandler. rewrite Hdecode.
    eexists. eexists. split; [reflexivity|]. left. eauto.
Qed.

(** An answer is the opening log line, then collaborator calls and log
    lines, then one call of [publishMessage] on the response topic. *)
Lemma commandRequestHandler_answer X requestTimeout dic client message
    requestEnvelope pre d c m :
  types_NewMessageEnvelopeFromJSON X (mqtt.Payload message)
    = inl requestEnvelope ->
  strings_Split (mqtt.Topic message) "/" = pre ++ [d; c; m] ->
  strings_EqualFold X m "get" = true \/ strings_EqualFold X m "set" = true ->
  exists received calls responseEnvelope,
    commandRequestHandler X requestTimeout dic client message
    = Log DEBUG received :: calls ++
      publishMessage X client (responseTopicFor X dic d c m)
        (QoS (ExternalMQTT (ConfigurationFrom dic)))
        (Retain (ExternalMQTT (ConfigurationFrom dic))) responseEnvelope
    /\
    Forall (fun e => match e with
                     | Published _ _ _ _ | Panic => False
                     | _ => True
                     end) calls.
Proof.
  intros Hdecode Hsplit Hmethod.
  destruct (commandRequestHandler_routed X requestTimeout dic client message
              requestEnvelope pre d c m Hdecode Hsplit Hmethod)
    as [received ->].
  exists received.
  destruct (validateRequestTopic X _ _ _ _ dic)
    as [[deviceServiceName deviceRequestTopic]|routeErr].
  - destruct (validateGetCommandQueryParameters X _) as [paramsErr|].
    + eexists [_; _]. eexists. split; [reflexivity|]. repeat constructor.
    + destruct (Request _ _ _ _ _) as [response|busErr].
      * eexists [_; _; _; _; _]. eexists. split; [reflexivity|].
        repeat constructor.
      * eexists [_; _; _; _]. eexists. split; [reflexivity|].
        repeat constructor.
  - eexists [_]. eexists. split; [reflexivity|]. repeat constructor.
Qed.

Lemma publishes_calls (calls : list Event) :
  Forall (fun e => match e with
                   | Published _ _ _ _ | Panic => False
                   | _ => True
                   end) calls ->
  publishes calls = [] /\ ~ In Panic calls.
Proof.
  induction 1 as [|e calls He _ [IHp IHn]]; [split; [reflexivity|tauto]|].
  destruct e; try contradiction; (split; [exact IHp|]);
    intros [H|H]; try discriminate H; exact (IHn H).
Qed.

(** Every run of the query handler is a drop or an answer. *)
Lemma commandQueryHandler_cases X dic client message :
  (exists received reason,
     commandQueryHandler X dic client message
     = [Log DEBUG received; Log ERROR reason; noResponseWarning] /\
     ((exists err,
         types_NewMessageEnvelopeFromJSON X (mqtt.Payload message) = inr err)
      \/ queryResponseTopic X dic = EmptyString))
  \/
  (exists requestEnvelope,
     types_NewMessageEnvelopeFromJSON X (mqtt.Payload message)
       = inl requestEnvelope /\
     queryResponseTopic X dic <> EmptyString).
Proof.
  destruct (types_NewMessageEnvelopeFromJSON X (mqtt.Payload message))
    as [requestEnvelope|err] eqn:Hdecode.
  - destruct (String.eqb_spec (queryResponseTopic X dic) EmptyString)
      as [E|Hne].
    + left. unfold commandQueryHandler. rewrite Hdecode. cbv zeta.
      rewrite E. eexists. eexists. split; [reflexivity|]. right. reflexivity.
    + right. eauto.
  - left. unfold commandQueryHandler. rewrite Hdecode.
    eexists. eexists. split; [reflexivity|]. left. eauto.
Qed.

Lemma publishes_answer X client topic qos retain responseEnvelope
    received (calls : list Event) :
  Forall (fun e => match e with
                   | Published _ _ _ _ | Panic => False
                   | _ => True
                   end) calls ->
  publishes (Log DEBUG received :: calls ++
             publishMessage X client topic qos retain responseEnvelope)
  = [Published topic qos retain (fst (json_Marshal X responseEnvelope))].
Proof.
  intros Hcalls. cbn [publishes]. rewrite publishes_app.
  rewrite (proj1 (publishes_calls calls Hcalls)), publishes_publishMessage.
  reflexivity.
Qed.


(** X2: on every input the command request handler publishes nothing or
    exactly one message, and that one goes to the configured response
    prefix joined with the last three levels of the request topic, with
    the configured quality of service and retain flag. *)
Theorem command_request_publish_shape
    (X : Externals) (requestTimeout : Duration) (dic : Container)
    (client : mqtt.Client) (message : mqtt.Message) :
  publishes (commandRequestHandler X requestTimeout dic client message) = []
  \/
  exists pre d c m responseEnvelope,
    strings_Split (mqtt.Topic message) "/" = pre ++ [d; c; m] /\
    publishes (commandRequestHandler X requestTimeout dic client message)
    = [Published
         (strings_Join
            [map_index (Topics (ExternalMQTT (ConfigurationFrom dic)))
                       (common_ExternalCommandResponseTopicPrefixKey X);
             d; c; m] "/")
         (QoS (ExternalMQTT (ConfigurationFrom dic)))
         (Retain (ExternalMQTT (ConfigurationFrom dic)))
         (fst (json_Marshal X responseEnvelope))].
Proof.
  destruct (commandRequestHandler_cases X requestTimeout dic client message)
    as [(received & reason & -> & _)
       |(requestEnvelope & pre & d & c & m & Hdecode & Hsplit & Hmethod)].
  - left. reflexivity.
  - right.
    destruct (commandRequestHandler_answer X requestTimeout dic client
                message requestEnvelope pre d c m Hdecode Hsplit Hmethod)
      as (received & calls & responseEnvelope & -> & Hcalls).
    exists pre, d, c, m, responseEnvelope. split; [exact Hsplit|].
    apply publishes_answer. exact Hcalls.
Qed.


(** X4: on every input the query handler publishes nothing or exactly
    one message, and that one goes to the configured query-response
    topic, which is then not empty, with the configured quality of
    service and retain flag. *)
Theorem query_publish_shape
    (X : Externals) (dic : Container) (client : mqtt.Client)
    (message : mqtt.Message) :
  publishes (commandQueryHandler X dic client message) = []
  \/
  (queryResponseTopic X dic <> EmptyString /\
   exists responseEnvelope,
     publishes (commandQueryHandler X dic client message)
     = [Published
          (map_index (Topics (ExternalMQTT (ConfigurationFrom dic)))
                     (common_ExternalCommandQueryResponseTopicKey X))
          (QoS (ExternalMQTT (ConfigurationFrom dic)))
          (Retain (ExternalMQTT (ConfigurationFrom dic)))
          (fst (json_Marshal X responseEnvelope))]).
Proof.
  destruct (commandQueryHandler_cases X dic client message)
    as [(received & reason & -> & _)|(requestEnvelope & Hdecode & Hne)].
  - left. reflexivity.
  - right. split; [exact Hne|].
    destruct (strings_Split_last (mqtt.Topic message) "/")
      as (pre & lastLevel & Hsplit).
    destruct (commandQueryHandler_answered X dic client message
                requestEnvelope pre lastLevel Hdecode Hne Hsplit)
      as (received & responseEnvelope & ->).
    exists responseEnvelope. step_handler. reflexivity.
Qed.




(** ** The request on the internal bus *)

(** X6: whenever the command request handler calls the internal bus, it
    sends the decoded request envelope itself, to the service and topic
    the routing resolution returned for the last three topic levels,
    with the time bound the handler was built with, and only after the
    query parameters passed validation. *)
Theorem bus_request_only_after_routing_and_validation
    (X : Externals) (requestTimeout : Duration) (dic : Container)
    (client : mqtt.Client) (message : mqtt.Message)
    (request : types.MessageEnvelope) (service topic : string)
    (timeout : Duration) :
  In (RequestCall request service topic timeout)
     (commandRequestHandler X requestTimeout dic client message) ->
  types_NewMessageEnvelopeFromJSON X (mqtt.Payload message) = inl request /\
  timeout = requestTimeout /\
  validateGetCommandQueryParameters X (types.QueryParams request) = None /\
  exists pre d c m,
    strings_Split (mqtt.Topic message) "/" = pre ++ [d; c; m] /\
    validateRequestTopic X (internalRequestPrefix X dic) d c m dic
    = inl (service, topic).
Proof.
  intros Hin.
  destruct (commandRequestHandler_cases X requestTimeout dic client message)
    as [(received & reason & Hrun & _)
       |(requestEnvelope & pre & d & c & m & Hdecode & Hsplit & Hmethod)].
  - rewrite Hrun in Hin.
    destruct Hin as [H|[H|[H|[]]]]; discriminate H.
  - destruct (commandRequestHandler_routed X requestTimeout dic client
                message requestEnvelope pre d c m Hdecode Hsplit Hmethod)
      as [received Hrun].
    rewrite Hrun in Hin. clear Hrun.
    destruct Hin as [H|[H|Hin]]; try discriminate H.
    destruct (validateRequestTopic X _ _ _ _ dic)
      as [[deviceServiceName deviceRequestTopic]|routeErr] eqn:Hroute.
    + destruct Hin as [H|Hin]; [discriminate H|].
      destruct (validateGetCommandQueryParameters X _)
        as [paramsErr|] eqn:Hparams.
      * apply publishMessage_events in Hin as [H|H]; discriminate H.
      * destruct Hin as [H|[H|Hin]]; [discriminate H| |].
        -- injection H as <- <- <- <-.
           split; [exact Hdecode|]. split; [reflexivity|].
           split; [exact Hparams|]. exists pre, d, c, m. auto.
        -- destruct (Request _ _ _ _ _) as [response|busErr].
           ++ destruct Hin as [H|Hin]; [discriminate H|].
              apply publishMessage_events in Hin as [H|H]; discriminate H.
           ++ apply publishMessage_events in Hin as [H|H]; discriminate H.
    + apply publishMessage_events in Hin as [H|H]; discriminate H.
Qed.

Lemma bus_request_witness :
  Scenario.decode
    (mqtt.Payload
       (Scenario.message "edgex/command/request/sensor1/heartbeat/get" "R1"))
    = inl (Scenario.envelope "R1" 0 EmptyString ∅) /\
  Scenario.timeout = Scenario.timeout /\
  Scenario.checkParams
    (types.QueryParams (Scenario.envelope "R1" 0 EmptyString ∅)) = None /\
  exists pre d c m,
    strings_Split "edgex/command/request/sensor1/heartbeat/get" "/"
      = pre ++ [d; c; m] /\
    Scenario.route "internal" d c m (Scenario.dic Scenario.answeringBus)
    = inl ("svcA", "internal/svcA/sensor1/heartbeat/get").
Proof.
  apply (bus_request_only_after_routing_and_validation Scenario.externals
           Scenario.timeout (Scenario.dic Scenario.answeringBus)
           Scenario.broker
           (Scenario.message "edgex/command/request/sensor1/heartbeat/get" "R1")
           (Scenario.envelope "R1" 0 EmptyString ∅)
           "svcA" "internal/svcA/sensor1/heartbeat/get" Scenario.timeout).
  vm_compute. do 4 right. left. reflexivity.
Defined.

(** ** Topic levels, counted and rebuilt *)

Lemma strings_Split_length s sep :
  length (strings_Split s sep) = S (count_byte sep s).
Proof.
  induction s as [|c rest IH]; [reflexivity|]. simpl.
  destruct (Ascii.eqb c sep).
  - simpl. rewrite IH. reflexivity.
  - destruct (strings_Split rest sep); simpl in *; [discriminate IH|exact IH].
Qed.

(** X7: the command request handler accepts a topic for parsing exactly
    when it holds two or more [/] bytes; the levels themselves may be
    empty. *)
Theorem command_topic_parsed_iff_two_separators (topic : string) :
  (commandTopicLevels topic = None <-> (count_byte "/" topic < 2)%nat)
  /\
  ((2 <= count_byte "/" topic)%nat <->
   exists d c m, commandTopicLevels topic = Some (Some (d, c, m))).
Proof.
  pose proof (strings_Split_length topic "/") as Hlen.
  destruct (Nat.lt_ge_cases (count_byte "/" topic) 2) as [Hfew|Hmany].
  - assert (Hnone : commandTopicLevels topic = None)
      by (apply commandTopicLevels_short; lia).
    split; split; intros H; try assumption; try lia.
    destruct H as (d & c & m & H). rewrite Hnone in H. discriminate H.
  - destruct (last3_exists (strings_Split topic "/")) as (pre & d & c & m & E);
      [lia|].
    pose proof (commandTopicLevels_last3 topic pre d c m E) as Hsome.
    split; split; intros H; try assumption; try lia; eauto.
    rewrite Hsome in H. discriminate H.
Qed.

Lemma command_topic_parsed_iff_two_separators_witness :
  commandTopicLevels "heartbeat/get" = None /\
  exists d c m, commandTopicLevels "//" = Some (Some (d, c, m)).
Proof.
  split.
  - apply (proj2 (proj1 (command_topic_parsed_iff_two_separators
                           "heartbeat/get"))).
    vm_compute. lia.
  - apply (proj1 (proj2 (command_topic_parsed_iff_two_separators "//"))).
    vm_compute. lia.
Defined.

Lemma strings_Split_app (a b : string) (sep : ascii) :
  strings_Split (a +:+ String sep b) sep
  = strings_Split a sep ++ strings_Split b sep.
Proof.
  induction a as [|x a IH].
  - simpl. rewrite Ascii.eqb_refl. reflexivity.
  - change (String x a +:+ String sep b)
      with (String x (a +:+ String sep b)).
    cbn [strings_Split]. rewrite IH.
    destruct (Ascii.eqb x sep); [reflexivity|].
    destruct (strings_Split a sep) as [|seg segs] eqn:E; [|reflexivity].
    exfalso. eapply strings_Split_nonempty; eauto.
Qed.

(** X8: the response topic parses back to the request's triple: for the
    last three levels [d], [c], [m] of any request topic, and whatever
    response prefix is configured (empty, or with levels of its own),
    the topic built on line 121 again ends in the levels [d], [c], [m]. *)
Theorem response_topic_round_trip
    (X : Externals) (dic : Container) (topic : string)
    (pre : list string) (d c m : string) :
  strings_Split topic "/" = pre ++ [d; c; m] ->
  strings_Split (responseTopicFor X dic d c m) "/"
  = strings_Split
      (map_index (Topics (ExternalMQTT (ConfigurationFrom dic)))
                 (common_ExternalCommandResponseTopicPrefixKey X)) "/"
    ++ [d; c; m]
  /\
  commandTopicLevels (responseTopicFor X dic d c m) = Some (Some (d, c, m)).
Proof.
  intros Hsplit.
  pose proof (strings_Split_levels topic "/") as Hlevels.
  rewrite Hsplit in Hlevels. apply Forall_app in Hlevels as [_ Hlevels].
  inversion Hlevels as [|? ? Hd Hcm]; subst.
  inversion Hcm as [|? ? Hc Hm']; subst.
  inversion Hm' as [|? ? Hm _]; subst.
  assert (E : strings_Split (responseTopicFor X dic d c m) "/"
              = strings_Split
                  (map_index (Topics (ExternalMQTT (ConfigurationFrom dic)))
                     (common_ExternalCommandResponseTopicPrefixKey X)) "/"
                ++ [d; c; m]).
  { unfold responseTopicFor. cbv zeta.
    set (prefix := map_index _ _).
    change (strings_Join [prefix; d; c; m] "/")
      with (prefix +:+ String "/" (d +:+ String "/" (c +:+ String "/" m))).
    rewrite strings_Split_app.
    rewrite (strings_Split_app_level d) by exact Hd.
    rewrite (strings_Split_app_level c) by exact Hc.
    rewrite (strings_Split_level m) by exact Hm. reflexivity. }
  split; [exact E|].
  eapply commandTopicLevels_last3. exact E.
Qed.

Lemma response_topic_round_trip_witness :
  commandTopicLevels
    (responseTopicFor Scenario.externals (Scenario.dic Scenario.answeringBus)
       "sensor1" "heartbeat" "get")
  = Some (Some ("sensor1", "heartbeat", "get")).
Proof.
  apply (response_topic_round_trip Scenario.externals
           (Scenario.dic Scenario.answeringBus)
           "edgex/command/request/sensor1/heartbeat/get"
           ["edgex"; "command"; "request"] "sensor1" "heartbeat" "get").
  vm_compute. reflexivity.
Defined.

(** ** What a run depends on *)

(** X9: the command request handler reads nothing of the topic but its
    last three levels: two requests with the same payload whose topics
    end in the same three levels run alike after the opening log line
    (which quotes the topic), whatever levels come before. *)
Theorem command_request_ignores_topic_prefix
    (X : Externals) (requestTimeout : Duration) (dic : Container)
    (client : mqtt.Client) (message1 message2 : mqtt.Message)
    (pre1 pre2 : list string) (d c m : string) :
  mqtt.Payload message1 = mqtt.Payload message2 ->
  strings_Split (mqtt.Topic message1) "/" = pre1 ++ [d; c; m] ->
  strings_Split (mqtt.Topic message2) "/" = pre2 ++ [d; c; m] ->
  tl (commandRequestHandler X requestTimeout dic client message1)
  = tl (commandRequestHandler X requestTimeout dic client message2).
Proof.
  intros Hpayload Hsplit1 Hsplit2. unfold commandRequestHandler.
  rewrite Hpayload.
  rewrite (commandTopicLevels_last3 _ _ _ _ _ Hsplit1).
  rewrite (commandTopicLevels_last3 _ _ _ _ _ Hsplit2).
  reflexivity.
Qed.

Lemma command_request_ignores_topic_prefix_witness :
  tl (commandRequestHandler Scenario.externals Scenario.timeout
        (Scenario.dic Scenario.answeringBus) Scenario.broker
        (Scenario.message "edgex/command/request/sensor1/heartbeat/get" "R1"))
  = tl (commandRequestHandler Scenario.externals Scenario.timeout
          (Scenario.dic Scenario.answeringBus) Scenario.broker
          (Scenario.message "sensor1/heartbeat/get" "R1")).
Proof.
  apply (command_request_ignores_topic_prefix Scenario.externals
           Scenario.timeout (Scenario.dic Scenario.answeringBus)
           Scenario.broker
           (Scenario.message "edgex/command/request/sensor1/heartbeat/get" "R1")
           (Scenario.message "sensor1/heartbeat/get" "R1")
           ["edgex"; "command"; "request"] [] "sensor1" "heartbeat" "get");
    vm_compute; reflexivity.
Defined.

(** X10: the query handler reads nothing of the topic but its last
    level: two requests with the same payload whose topics end in the
    same level run alike after the opening log line. *)
Theorem query_request_ignores_topic_prefix
    (X : Externals) (dic : Container) (client : mqtt.Client)
    (message1 message2 : mqtt.Message)
    (pre1 pre2 : list string) (lastLevel : string) :
  mqtt.Payload message1 = mqtt.Payload message2 ->
  strings_Split (mqtt.Topic message1) "/" = pre1 ++ [lastLevel] ->
  strings_Split (mqtt.Topic message2) "/" = pre2 ++ [lastLevel] ->
  tl (commandQueryHandler X dic client message1)
  = tl (commandQueryHandler X dic client message2).
Proof.
  intros Hpayload Hsplit1 Hsplit2. unfold commandQueryHandler.
  rewrite Hpayload, Hsplit1, Hsplit2, !slice_index_last. reflexivity.
Qed.

Lemma query_request_ignores_topic_prefix_witness :
  tl (commandQueryHandler Scenario.externals
        (Scenario.dic Scenario.answeringBus) Scenario.broker
        (Scenario.message "edgex/commandquery/request/sensor1" "R1"))
  = tl (commandQueryHandler Scenario.externals
          (Scenario.dic Scenario.answeringBus) Scenario.broker
          (Scenario.message "sensor1" "R1")).
Proof.
  apply (query_request_ignores_topic_prefix Scenario.externals
           (Scenario.dic Scenario.answeringBus) Scenario.broker
           (Scenario.message "edgex/commandquery/request/sensor1" "R1")
           (Scenario.message "sensor1" "R1")
           ["edgex"; "commandquery"; "request"] [] "sensor1");
    vm_compute; reflexivity.
Defined.

(** ** The answer of the query handler *)

(** X11: a decodable query request, with a response topic configured, is
    answered once on that topic: with the envelope of the command-query
    collaborator as it is when the collaborator succeeds, and otherwise
    with an error envelope that carries the request id of the request
    and the collaborator's error text, unprefixed, for payload. *)
Theorem query_answered_with_collaborator_result
    (X : Externals) (dic : Container) (client : mqtt.Client)
    (message : mqtt.Message) (requestEnvelope : types.MessageEnvelope)
    (pre : list string) (lastLevel : string) :
  types_NewMessageEnvelopeFromJSON X (mqtt.Payload message)
    = inl requestEnvelope ->
  queryResponseTopic X dic <> EmptyString ->
  strings_Split (mqtt.Topic message) "/" = pre ++ [lastLevel] ->
  let deviceName :=
    if strings_EqualFold X lastLevel (common_All X)
    then common_All X else lastLevel in
  (forall response,
     getCommandQueryResponseEnvelope X requestEnvelope deviceName dic
       = inl response ->
     publishes (commandQueryHandler X dic client message)
     = [Published (queryResponseTopic X dic)
          (QoS (ExternalMQTT (ConfigurationFrom dic)))
          (Retain (ExternalMQTT (ConfigurationFrom dic)))
          (fst (json_Marshal X response))])
  /\
  (forall err,
     getCommandQueryResponseEnvelope X requestEnvelope deviceName dic
       = inr err ->
     exists responseEnvelope,
       types.RequestID responseEnvelope = types.RequestID requestEnvelope /\
       types.ErrorCode responseEnvelope = 1 /\
       types.Payload responseEnvelope = bytes_of err /\
       publishes (commandQueryHandler X dic client message)
       = [Published (queryResponseTopic X dic)
            (QoS (ExternalMQTT (ConfigurationFrom dic)))
            (Retain (ExternalMQTT (ConfigurationFrom dic)))
            (fst (json_Marshal X responseEnvelope))]).
Proof.
  intros Hdecode Htopic Hsplit deviceName.
  assert (Hrun : publishes (commandQueryHandler X dic client message)
                 = [Published (queryResponseTopic X dic)
                      (QoS (ExternalMQTT (ConfigurationFrom dic)))
                      (Retain (ExternalMQTT (ConfigurationFrom dic)))
                      (fst (json_Marshal X
                         match getCommandQueryResponseEnvelope X
                                 requestEnvelope deviceName dic with
                         | inl response => response
                         | inr err =>
                             NewMessageEnvelopeWithError X
                               (types.RequestID requestEnvelope) err
                         end))]).
  { unfold commandQueryHandler. rewrite Hdecode. cbv zeta.
    destruct (String.eqb_spec (queryResponseTopic X dic) EmptyString)
      as [E|_]; [contradiction|].
    rewrite Hsplit, slice_index_last. step_handler. reflexivity. }
  split.
  - intros response Hquery. rewrite Hrun, Hquery. reflexivity.
  - intros err Hquery. rewrite Hrun, Hquery.
    exists (NewMessageEnvelopeWithError X (types.RequestID requestEnvelope) err).
    repeat split.
Qed.

Lemma query_answered_with_collaborator_result_witness :
  publishes (commandQueryHandler Scenario.externals
               (Scenario.dic Scenario.answeringBus) Scenario.broker
               (Scenario.message "edgex/commandquery/request/ALL" "R1"))
  = [Published "edgex/commandquery/response" x01 false
       (bytes_of "R1|0|commands of all")]
  /\
  exists responseEnvelope,
    types.RequestID responseEnvelope = "R1" /\
    types.ErrorCode responseEnvelope = 1 /\
    types.Payload responseEnvelope = bytes_of "device sensor9 not found" /\
    publishes (commandQueryHandler ConnectScenario.withoutDevices
                 (Scenario.dic Scenario.answeringBus) Scenario.broker
                 (Scenario.message "edgex/commandquery/request/sensor9" "R1"))
    = [Published "edgex/commandquery/response" x01 false
         (fst (Scenario.marshal responseEnvelope))].
Proof.
  split.
  - apply (proj1 (query_answered_with_collaborator_result Scenario.externals
                    (Scenario.dic Scenario.answeringBus) Scenario.broker
                    (Scenario.message "edgex/commandquery/request/ALL" "R1")
                    (Scenario.envelope "R1" 0 EmptyString ∅)
                    ["edgex"; "commandquery"; "request"] "ALL"
                    ltac:(vm_compute; reflexivity)
                    ltac:(vm_compute; discriminate)
                    ltac:(vm_compute; reflexivity))
             (Scenario.envelope "R1" 0 "commands of all" ∅)).
    vm_compute. reflexivity.
  - apply (proj2 (query_answered_with_collaborator_result
                    ConnectScenario.withoutDevices
                    (Scenario.dic Scenario.answeringBus) Scenario.broker
                    (Scenario.message "edgex/commandquery/request/sensor9" "R1")
                    (Scenario.envelope "R1" 0 EmptyString ∅)
                    ["edgex"; "commandquery"; "request"] "sensor9"
                    ltac:(vm_compute; reflexivity)
                    ltac:(vm_compute; discriminate)
                    ltac:(vm_compute; reflexivity))
             "device sensor9 not found").
    vm_compute. reflexivity.
Defined.

(** ** Missing configuration *)



(** ** Subscribing on connect *)

(** X13: on connect both subscriptions are attempted, the query-request
    filter first and the command-request filter second, each with the
    configured quality of service and each followed by one log line;
    the second is attempted whatever the broker said to the first.  The
    callbacks are the two handlers over the same container, the command
    handler with the time bound given to [OnConnectHandler]. *)
Theorem OnConnectHandler_subscribes_both
    (X : Externals) (K : SubscriptionKeys) (requestTimeout : Duration)
    (dic : Container) (client : SubscribingClient) :
  exists level1 text1 level2 text2,
    OnConnectHandler X K requestTimeout dic client
    = [Subscribed
         (map_index (Topics (ExternalMQTT (ConfigurationFrom dic)))
                    (common_CommandQueryRequestTopicKey K))
         (QoS (ExternalMQTT (ConfigurationFrom dic)))
         (commandQueryHandler X dic);
       ConnectLog level1 text1;
       Subscribed
         (map_index (Topics (ExternalMQTT (ConfigurationFrom dic)))
                    (common_CommandRequestTopicKey K))
         (QoS (ExternalMQTT (ConfigurationFrom dic)))
         (commandRequestHandler X requestTimeout dic);
       ConnectLog level2 text2].
Proof.
  unfold OnConnectHandler. cbv zeta.
  destruct (Subscribe client
              (map_index _ (common_CommandQueryRequestTopicKey K)) _ _)
    as [[] []];
  destruct (Subscribe client
              (map_index _ (common_CommandRequestTopicKey K)) _ _)
    as [[] []];
  cbn [mqtt.Wait mqtt.Error app];
  do 4 eexists; reflexivity.
Qed.

(** X14: a subscription the broker refuses is logged at error level with
    the topic and the broker's error text, and nothing more: the other
    subscription is made all the same.  Here for the first of the two. *)
Theorem OnConnectHandler_refused_subscription_logged
    (X : Externals) (K : SubscriptionKeys) (requestTimeout : Duration)
    (dic : Container) (client : SubscribingClient) (err : error) :
  let requestQueryTopic :=
    map_index (Topics (ExternalMQTT (ConfigurationFrom dic)))
              (common_CommandQueryRequestTopicKey K) in
  Subscribe client requestQueryTopic
    (QoS (ExternalMQTT (ConfigurationFrom dic))) (commandQueryHandler X dic)
  = {| mqtt.Wait := true; mqtt.Error := Some err |} ->
  exists level2 text2,
    OnConnectHandler X K requestTimeout dic client
    = [Subscribed requestQueryTopic
         (QoS (ExternalMQTT (ConfigurationFrom dic)))
         (commandQueryHandler X dic);
       ConnectLog ERROR ("could not subscribe to topic '"
                         +:+ requestQueryTopic +:+ "': " +:+ err);
       Subscribed
         (map_index (Topics (ExternalMQTT (ConfigurationFrom dic)))
                    (common_CommandRequestTopicKey K))
         (QoS (ExternalMQTT (ConfigurationFrom dic)))
         (commandRequestHandler X requestTimeout dic);
       ConnectLog level2 text2].
Proof.
  intros requestQueryTopic Hrefused. unfold OnConnectHandler. cbv zeta.
  fold requestQueryTopic. rewrite Hrefused.
  destruct (Subscribe client
              (map_index _ (common_CommandRequestTopicKey K)) _ _)
    as [[] []];
  cbn [mqtt.Wait mqtt.Error app];
  do 2 eexists; reflexivity.
Qed.

Lemma OnConnectHandler_refused_subscription_witness :
  exists level2 text2,
    OnConnectHandler Scenario.externals ConnectScenario.keys Scenario.timeout
      ConnectScenario.dic ConnectScenario.refusingQueries
    = [Subscribed "edgex/commandquery/request/#" x01
         (commandQueryHandler Scenario.externals ConnectScenario.dic);
       ConnectLog ERROR "could not subscribe to topic 'edgex/commandquery/request/#': not authorized";
       Subscribed "edgex/command/request/#" x01
         (commandRequestHandler Scenario.externals Scenario.timeout
            ConnectScenario.dic);
       ConnectLog level2 text2].
Proof.
  apply (OnConnectHandler_refused_subscription_logged Scenario.externals
           ConnectScenario.keys Scenario.timeout ConnectScenario.dic
           ConnectScenario.refusingQueries "not authorized").
  reflexivity.
Defined.

(** X15: nothing guards the subscriptions against a missing topic key:
    when neither request-topic key is configured, both subscriptions
    are made on the empty topic filter. *)
Theorem OnConnectHandler_missing_keys_subscribe_empty
    (X : Externals) (K : SubscriptionKeys) (requestTimeout : Duration)
    (dic : Container) (client : SubscribingClient) :
  Topics (ExternalMQTT (ConfigurationFrom dic))
    !! common_CommandQueryRequestTopicKey K = None ->
  Topics (ExternalMQTT (ConfigurationFrom dic))
    !! common_CommandRequestTopicKey K = None ->
  subscriptions (OnConnectHandler X K requestTimeout dic client)
  = [Subscribed EmptyString (QoS (ExternalMQTT (ConfigurationFrom dic)))
       (commandQueryHandler X dic);
     Subscribed EmptyString (QoS (ExternalMQTT (ConfigurationFrom dic)))
       (commandRequestHandler X requestTimeout dic)].
Proof.
  intros Hquery Hcommand. unfold OnConnectHandler, map_index. cbv zeta.
  rewrite Hquery, Hcommand. cbn [default].
  destruct (Subscribe client EmptyString _ (commandQueryHandler X dic))
    as [[] []];
  destruct (Subscribe client EmptyString _
              (commandRequestHandler X requestTimeout dic))
    as [[] []];
  reflexivity.
Qed.

Lemma OnConnectHandler_missing_keys_witness :
  subscriptions (OnConnectHandler Scenario.externals ConnectScenario.keys
                   Scenario.timeout Scenario.bareDic
                   ConnectScenario.accepting)
  = [Subscribed EmptyString x01
       (commandQueryHandler Scenario.externals Scenario.bareDic);
     Subscribed EmptyString x01
       (commandRequestHandler Scenario.externals Scenario.timeout
          Scenario.bareDic)].
Proof.
  apply (OnConnectHandler_missing_keys_subscribe_empty Scenario.externals
           ConnectScenario.keys Scenario.timeout Scenario.bareDic
           ConnectScenario.accepting);
    vm_compute; reflexivity.
Defined.

(** ** Error-level logging of the publisher *)

(** X16: [publishMessage] logs at error level exactly when the envelope
    is an error envelope ([ErrorCode] 1, whose payload it logs) or the
    broker reports the publish as failed; a token with an error but
    whose [Wait] answers false counts as published. *)
Theorem publishMessage_error_logs
    (X : Externals) (client : mqtt.Client) (responseTopic : string)
    (qos : byte) (retain : bool) (message : types.MessageEnvelope) :
  (exists text,
     In (Log ERROR text)
        (publishMessage X client responseTopic qos retain message))
  <->
  types.ErrorCode message = 1 \/
  exists err,
    mqtt.Publish client responseTopic qos retain
      (fst (json_Marshal X message))
    = {| mqtt.Wait := true; mqtt.Error := Some err |}.
Proof.
  unfold publishMessage. cbv zeta.
  destruct (Z.eqb_spec (types.ErrorCode message) 1) as [Hcode|Hcode].
  - split; [intros _; left; exact Hcode|].
    intros _. eexists. left. reflexivity.
  - destruct (mqtt.Publish client responseTopic qos retain _) as [[] [err|]];
      cbn [mqtt.Wait mqtt.Error app].
    + split; [intros _; right; eauto|].
      intros _. eexists. right. left. reflexivity.
    + split.
      * intros [text [H|[H|[]]]]; discriminate H.
      * intros [H|[err H]]; [contradiction|discriminate H].
    + split.
      * intros [text [H|[H|[]]]]; discriminate H.
      * intros [H|[err' H]]; [contradiction|discriminate H].
    + split.
      * intros [text [H|[H|[]]]]; discriminate H.
      * intros [H|[err H]]; [contradiction|discriminate H].
Qed.

Lemma publishMessage_error_logs_witness :
  exists text,
    In (Log ERROR text)
       (publishMessage Scenario.externals Scenario.deafBroker
          "edgex/commandquery/response" x01 false
          (Scenario.envelope "R1" 0 "42" ∅)).
Proof.
  apply (proj2 (publishMessage_error_logs Scenario.externals
                  Scenario.deafBroker "edgex/commandquery/response" x01 false
                  (Scenario.envelope "R1" 0 "42" ∅))).
  right. exists "not connected". reflexivity.
Defined.

(** ** Routing, and the log of an error answer *)

(** X17: whenever the routing resolution is called, it is given the
    configured internal request prefix and the last three levels of the
    request topic as they are spelled there; the method is one that
    [strings.EqualFold] equates with [get] or [set], not its lower-case
    form. *)
Theorem routing_called_with_last_three_levels
    (X : Externals) (requestTimeout : Duration) (dic : Container)
    (client : mqtt.Client) (message : mqtt.Message)
    (prefix d c m : string) :
  In (RouteCall prefix d c m)
     (commandRequestHandler X requestTimeout dic client message) ->
  prefix = map_index (BusTopics (MessageBus (ConfigurationFrom dic)))
                     (common_DeviceCommandRequestTopicPrefixKey X) /\
  (exists pre, strings_Split (mqtt.Topic message) "/" = pre ++ [d; c; m]) /\
  (strings_EqualFold X m "get" = true \/ strings_EqualFold X m "set" = true).
Proof.
  intros Hin.
  destruct (commandRequestHandler_cases X requestTimeout dic client message)
    as [(received & reason & Hrun & _)
       |(requestEnvelope & pre & d' & c' & m' & Hdecode & Hsplit & Hmethod)].
  - rewrite Hrun in Hin.
    destruct Hin as [H|[H|[H|[]]]]; discriminate H.
  - assert (E : RouteCall prefix d c m
                = RouteCall (internalRequestPrefix X dic) d' c' m').
    { destruct (commandRequestHandler_routed X requestTimeout dic client
                  message requestEnvelope pre d' c' m' Hdecode Hsplit Hmethod)
        as [received Hrun].
      rewrite Hrun in Hin. clear Hrun.
      destruct Hin as [H|[H|Hin]]; [discriminate H|symmetry; exact H|].
      exfalso.
      destruct (validateRequestTopic X _ _ _ _ dic)
        as [[deviceServiceName deviceRequestTopic]|routeErr].
      - destruct Hin as [H|Hin]; [discriminate H|].
        destruct (validateGetCommandQueryParameters X _) as [paramsErr|].
        + apply publishMessage_events in Hin as [H|H]; discriminate H.
        + destruct Hin as [H|[H|Hin]]; try discriminate H.
          destruct (Request _ _ _ _ _) as [response|busErr].
          * destruct Hin as [H|Hin]; [discriminate H|].
            apply publishMessage_events in Hin as [H|H]; discriminate H.
          * apply publishMessage_events in Hin as [H|H]; discriminate H.
      - apply publishMessage_events in Hin as [H|H]; discriminate H. }
    injection E as -> -> -> ->.
    split; [reflexivity|]. split; [eauto|exact Hmethod].
Qed.

Lemma routing_called_witness :
  "internal"
  = map_index (BusTopics (MessageBus (ConfigurationFrom
                 (Scenario.dic Scenario.answeringBus))))
              "DeviceCommandRequestTopicPrefix" /\
  (exists pre,
     strings_Split "edgex/command/request/sensor1/heartbeat/GET" "/"
     = pre ++ ["sensor1"; "heartbeat"; "GET"]) /\
  (ascii_EqualFold "GET" "get" = true \/ ascii_EqualFold "GET" "set" = true).
Proof.
  apply (routing_called_with_last_three_levels Scenario.externals
           Scenario.timeout (Scenario.dic Scenario.answeringBus)
           Scenario.broker
           (Scenario.message "edgex/command/request/sensor1/heartbeat/GET" "R1")
           "internal" "sensor1" "heartbeat" "GET").
  vm_compute. right. left. reflexivity.
Defined.

Lemma publishMessage_logs_error_text X client topic qos retain
    requestId errorMessage :
  In (Log ERROR errorMessage)
     (publishMessage X client topic qos retain
        (NewMessageEnvelopeWithError X requestId errorMessage)).
Proof.
  unfold publishMessage. cbv zeta. apply in_or_app. left.
  cbn [types.ErrorCode NewMessageEnvelopeWithError types.Payload].
  change (1 =? 1) with true. cbv iota. left.
  unfold string_of, bytes_of.
  rewrite string_of_list_byte_of_string. reflexivity.
Qed.

(** X18: an error that is answered is also logged: when routing or
    validation fails the handler logs the failure text at error level,
    and when the bus request fails it logs that text behind [Failed to
    send DeviceCommand request with internal MessageBus: ], in each case
    the text the error envelope carries. *)
Theorem answered_errors_are_logged
    (X : Externals) (requestTimeout : Duration) (dic : Container)
    (client : mqtt.Client) (message : mqtt.Message)
    (requestEnvelope : types.MessageEnvelope)
    (pre : list string) (d c m : string) :
  types_NewMessageEnvelopeFromJSON X (mqtt.Payload message)
    = inl requestEnvelope ->
  strings_Split (mqtt.Topic message) "/" = pre ++ [d; c; m] ->
  strings_EqualFold X m "get" = true \/ strings_EqualFold X m "set" = true ->
  (forall err,
     validateRequestTopic X (internalRequestPrefix X dic) d c m dic
       = inr err ->
     In (Log ERROR err)
        (commandRequestHandler X requestTimeout dic client message))
  /\
  (forall service topic err,
     validateRequestTopic X (internalRequestPrefix X dic) d c m dic
       = inl (service, topic) ->
     validateGetCommandQueryParameters X (types.QueryParams requestEnvelope)
       = Some err ->
     In (Log ERROR err)
        (commandRequestHandler X requestTimeout dic client message))
  /\
  (forall service topic err,
     validateRequestTopic X (internalRequestPrefix X dic) d c m dic
       = inl (service, topic) ->
     validateGetCommandQueryParameters X (types.QueryParams requestEnvelope)
       = None ->
     Request (MessagingClientFrom dic) requestEnvelope service topic
       requestTimeout = inr err ->
     In (Log ERROR
           ("Failed to send DeviceCommand request with internal MessageBus: "
            +:+ err))
        (commandRequestHandler X requestTimeout dic client message)).
Proof.
  intros Hdecode Hsplit Hmethod.
  destruct (commandRequestHandler_routed X requestTimeout dic client message
              requestEnvelope pre d c m Hdecode Hsplit Hmethod)
    as [received ->].
  split; [|split].
  - intros err ->. do 2 right. apply publishMessage_logs_error_text.
  - intros service topic err -> ->. do 3 right.
    apply publishMessage_logs_error_text.
  - intros service topic err -> -> ->. do 5 right.
    apply publishMessage_logs_error_text.
Qed.

Lemma answered_errors_are_logged_witness :
  In (Log ERROR "device sensor7 not found")
     (commandRequestHandler Scenario.externals Scenario.timeout
        (Scenario.dic Scenario.answeringBus) Scenario.broker
        (Scenario.message "edgex/command/request/sensor7/heartbeat/get" "R1"))
  /\
  In (Log ERROR "Failed to send DeviceCommand request with internal MessageBus: request timed out")
     (commandRequestHandler Scenario.externals Scenario.timeout
        (Scenario.dic Scenario.silentBus) Scenario.broker
        (Scenario.message "edgex/command/request/sensor1/heartbeat/get" "R1")).
Proof.
  split.
  - apply (proj1 (answered_errors_are_logged Scenario.externals
                    Scenario.timeout (Scenario.dic Scenario.answeringBus)
                    Scenario.broker
                    (Scenario.message
                       "edgex/command/request/sensor7/heartbeat/get" "R1")
                    (Scenario.envelope "R1" 0 EmptyString ∅)
                    ["edgex"; "command"; "request"] "sensor7" "heartbeat" "get"
                    ltac:(vm_compute; reflexivity)
                    ltac:(vm_compute; reflexivity)
                    ltac:(left; vm_compute; reflexivity))).
    vm_compute. reflexivity.
  - apply (proj2 (proj2 (answered_errors_are_logged Scenario.externals
                    Scenario.timeout (Scenario.dic Scenario.silentBus)
                    Scenario.broker
                    (Scenario.message
                       "edgex/command/request/sensor1/heartbeat/get" "R1")
                    (Scenario.envelope "R1" 0 EmptyString ∅)
                    ["edgex"; "command"; "request"] "sensor1" "heartbeat" "get"
                    ltac:(vm_compute; reflexivity)
                    ltac:(vm_compute; reflexivity)
                    ltac:(left; vm_compute; reflexivity)))
             "svcA" "internal/svcA/sensor1/heartbeat/get" "request timed out");
      vm_compute; reflexivity.
Defined.
